(** * Verification of [packages/cli/helpers/build.ts]

    The build script of the CLI package: two esbuild plugins
    ([cliLifecyclePlugin], [externalPackageJson]), three build
    configurations handed to the build runner, and the two utilities
    [chmodX] and [replaceFirstLine].

    The script is embedded shallowly.  Pure code becomes functions, the
    asynchronous hooks become programs of a small state-and-exception monad
    over a [world] (file system, promise cells, pending I/O, event log). *)

From Stdlib Require Import ZArith String Ascii List Lia Bool.
From stdpp Require Import base strings gmap list.

Local Open Scope string_scope.
Local Open Scope list_scope.

(** ** Strings *)

Definition chars (s : string) : list ascii := list_ascii_of_string s.
Definition of_chars (l : list ascii) : string := string_of_list_ascii l.

Definition is_slash (c : ascii) : bool := Ascii.eqb c "/".

(** [s.startsWith(p)] and [s.endsWith(p)]. *)
Definition starts_with (p s : string) : bool := String.prefix p s.
Definition ends_with (p s : string) : bool :=
  String.prefix (of_chars (rev (chars p))) (of_chars (rev (chars s))).

Fixpoint drop_while {A} (f : A -> bool) (l : list A) : list A :=
  match l with
  | [] => []
  | x :: l' => if f x then drop_while f l' else l
  end.

(** [s.split('/')]: never empty, [""] for the empty string. *)
Fixpoint split_slash (s : string) : list string :=
  match s with
  | EmptyString => [ "" ]
  | String c s' =>
      match split_slash s' with
      | seg :: segs =>
          if is_slash c then "" :: seg :: segs else String c seg :: segs
      | [] => [ String c "" ]
      end
  end.

(** [segs.join('/')]. *)
Definition join_slash (segs : list string) : string := String.concat "/" segs.

(** ** Node's [path] module (POSIX flavour)

    The script calls [path.join], [path.resolve], [path.dirname] and
    [path.relative].  They belong to the host runtime; the definitions below
    follow the runtime's documented algorithms on POSIX paths. *)

Module path.

(** [normalizeString]: drops empty and [.] segments, resolves [..]
    against the segments collected so far ([acc], most recent first). *)
Fixpoint normalize_segs (allowAboveRoot : bool) (acc segs : list string)
  : list string :=
  match segs with
  | [] => rev acc
  | seg :: rest =>
      if bool_decide (seg = "") || bool_decide (seg = ".")
      then normalize_segs allowAboveRoot acc rest
      else if bool_decide (seg = "..")
      then match acc with
           | top :: acc' =>
               if bool_decide (top = "..")
               then normalize_segs allowAboveRoot (".." :: acc) rest
               else normalize_segs allowAboveRoot acc' rest
           | [] =>
               if allowAboveRoot
               then normalize_segs allowAboveRoot [ ".." ] rest
               else normalize_segs allowAboveRoot [] rest
           end
      else normalize_segs allowAboveRoot (seg :: acc) rest
  end.

Definition normalizeString (p : string) (allowAboveRoot : bool) : string :=
  join_slash (normalize_segs allowAboveRoot [] (split_slash p)).

Definition isAbsolute (p : string) : bool := starts_with "/" p.

Definition normalize (p : string) : string :=
  if bool_decide (p = "") then "."
  else
    let absolute := isAbsolute p in
    let trailingSeparator := ends_with "/" p in
    let q := normalizeString p (negb absolute) in
    if bool_decide (q = "")
    then (if absolute then "/" else if trailingSeparator then "./" else ".")
    else
      let q := if trailingSeparator then q +:+ "/" else q in
      if absolute then "/" +:+ q else q.

(** [path.join(...parts)] *)
Definition join (parts : list string) : string :=
  match filter (fun p => p <> "") parts with
  | [] => "."
  | ps => normalize (join_slash ps)
  end.

(** The right-to-left loop of [path.resolve]: [acc] is the path
    accumulated from the arguments to the right. *)
Fixpoint resolve_loop (cwd : string) (rparts : list string) (acc : string)
  : string * bool :=
  match rparts with
  | [] =>
      if bool_decide (cwd = "") then (acc, false)
      else (cwd +:+ "/" +:+ acc, isAbsolute cwd)
  | p :: rest =>
      if bool_decide (p = "") then resolve_loop cwd rest acc
      else
        let acc' := p +:+ "/" +:+ acc in
        if isAbsolute p then (acc', true) else resolve_loop cwd rest acc'
  end.

(** [path.resolve(...parts)], with [cwd] standing for [process.cwd()]. *)
Definition resolve (cwd : string) (parts : list string) : string :=
  let '(resolvedPath, resolvedAbsolute) := resolve_loop cwd (rev parts) "" in
  let q := normalizeString resolvedPath (negb resolvedAbsolute) in
  if resolvedAbsolute then "/" +:+ q
  else if bool_decide (q = "") then "." else q.

(** [path.dirname(p)] *)
Definition dirname (p : string) : string :=
  match p with
  | EmptyString => "."
  | String c0 rest =>
      let hasRoot := is_slash c0 in
      let r := drop_while is_slash (rev (chars rest)) in
      match drop_while (fun c => negb (is_slash c)) r with
      | [] => if hasRoot then "/" else "."
      | _ :: r' =>
          if hasRoot && bool_decide (r' = []) then "//"
          else String c0 (of_chars (rev r'))
      end
  end.

Fixpoint strip_common (a b : list string) : list string * list string :=
  match a, b with
  | x :: a', y :: b' =>
      if bool_decide (x = y) then strip_common a' b' else (a, b)
  | _, _ => (a, b)
  end.

Definition abs_segs (p : string) : list string :=
  filter (fun s => s <> "") (split_slash p).

(** [path.relative(from, to)] *)
Definition relative (cwd : string) (from to : string) : string :=
  if bool_decide (from = to) then ""
  else
    let from' := resolve cwd [ from ] in
    let to' := resolve cwd [ to ] in
    if bool_decide (from' = to') then ""
    else
      let '(up, down) := strip_common (abs_segs from') (abs_segs to') in
      join_slash (replicate (length up) ".." ++ down).

End path.

(** ** The world the script runs in *)

Definition exn := string.

(** A file: its [st_mode] (type and permission bits) and its text, line by
    line, as a reader of lines gets it: the lines come without their
    terminators. *)
Record file := File { mode : Z; lines : list string }.

(** The calls that reach the operating system. *)
Inductive io_call :=
| Copy (src dst : string) (recursive overwrite : bool)
| CopyFile (src dst : string)
| LineReplace (file : string) (line : nat) (text : string) (addNewLine : bool)
| Run (command : string)
| StatSync (filename : string)
| ChmodSync (filename : string) (mode : string).

(** What an observer of the process sees: an asynchronous call begins and
    later ends (successfully or not), a synchronous call happens at once,
    the compiler emits an output file. *)
Inductive event :=
| Begin (c : io_call)
| End (c : io_call) (ok : bool)
| Sync (c : io_call)
| Emit (outfile : string).

(** The object [line-replace] hands to its callback: it carries the error
    when the rewrite failed, and the text that was replaced. *)
Record LineReplaceResult :=
  { error : option exn; replacedText : option string }.

Inductive value :=
| VUndefined
| VLineReplace (r : LineReplaceResult).

(** A promise cell. *)
Inductive pstate :=
| Pending
| Fulfilled (v : value)
| Rejected (e : exn).

(** The two functions a promise hands to its executor.  They are closures
    over the promise cell; the cell is shared, so they are represented by
    its address. *)
Inductive settle_fn :=
| ResolveFn (p : nat)
| RejectFn (p : nat).

(** How a pending call reports that it is over: by settling the promise it
    returned, or by calling the callback it was given. *)
Inductive completion :=
| ByPromise (p : nat)
| ByCallback (cb : settle_fn).

Record task := Task { t_call : io_call; t_done : completion }.

Record world := World {
  fs : gmap string file;          (* the file system *)
  modules : gmap string string;   (* what [require.resolve] finds *)
  exec : string -> option Z;      (* exit status of a shell command *)
  fault : io_call -> option exn;  (* I/O errors: permissions, disk, ... *)
  unreported : io_call -> bool;   (* failures a library keeps to itself *)
  compile_error : string -> option exn; (* errors in a target's sources *)
  umask : Z;                      (* the file mode creation mask *)
  promises : list pstate;         (* promise cells, by address *)
  queue : list task;              (* calls begun and not yet over *)
  log : list event                (* what has happened so far *)
}.

Definition set_fs (f : gmap string file) (w : world) : world :=
  World f (modules w) (exec w) (fault w) (unreported w) (compile_error w)
        (umask w) (promises w) (queue w) (log w).
Definition set_promises (ps : list pstate) (w : world) : world :=
  World (fs w) (modules w) (exec w) (fault w) (unreported w) (compile_error w)
        (umask w) ps (queue w) (log w).
Definition set_queue (q : list task) (w : world) : world :=
  World (fs w) (modules w) (exec w) (fault w) (unreported w) (compile_error w)
        (umask w) (promises w) q (log w).
Definition add_event (e : event) (w : world) : world :=
  World (fs w) (modules w) (exec w) (fault w) (unreported w) (compile_error w)
        (umask w) (promises w) (queue w) (log w ++ [ e ]).

(** Nothing is in flight. *)
Definition idle (w : world) : Prop := queue w = [].

(** ** Programs *)

Inductive res (A : Type) :=
| Ok (a : A)       (* returned *)
| Throw (e : exn)  (* threw *)
| Hang.            (* awaits a promise that nothing will settle *)
Arguments Ok {A} a.
Arguments Throw {A} e.
Arguments Hang {A}.

Definition M (A : Type) : Type := world -> res A * world.

#[export] Instance M_ret : MRet M := fun A a w => (Ok a, w).
#[export] Instance M_bind : MBind M := fun A B f m w =>
  match m w with
  | (Ok a, w') => f a w'
  | (Throw e, w') => (Throw e, w')
  | (Hang, w') => (Hang, w')
  end.

Definition throw {A} (e : exn) : M A := fun w => (Throw e, w).
Definition emit (e : event) : M unit := fun w => (Ok tt, add_event e w).

(** ** The file system *)

Definition is_under (dir k : string) : bool :=
  bool_decide (k = dir) || starts_with (dir +:+ "/") k.

Definition rebase (src dst k : string) : string :=
  dst +:+ of_chars (drop (String.length src) (chars k)).

(** Recursive copy with overwrite: every file at or below [src] is written
    at the same place below [dst].  The file system holds files only, and a
    directory is there by the files below it: a source with no file at or
    below it is reported missing, an empty directory cannot be told from
    none. *)
Definition copy_tree (src dst : string) (m : gmap string file)
  : option (gmap string file) :=
  match filter (fun kf => is_under src kf.1 = true) (map_to_list m) with
  | [] => None
  | found => Some (foldr (fun kf acc => <[rebase src dst kf.1 := kf.2]> acc) m found)
  end.

(** *** The rewrite of a line by the [line-replace] package

    The package reads the file line by line and writes a temporary file
    next to it: the text in place of the line asked for, followed by a
    terminator only when [addNewLine] is set, and every other line followed
    by a line feed.  Then it removes the file and gives its name to the
    temporary file. *)
Definition LF : string := String (ascii_of_nat 10) EmptyString.
Definition CR : string := String (ascii_of_nat 13) EmptyString.

Definition is_LF (c : ascii) : bool := Ascii.eqb c (ascii_of_nat 10).
Definition is_CR (c : ascii) : bool := Ascii.eqb c (ascii_of_nat 13).

(** The lines a reader gets from a text, as [readline] of the runtime cuts
    them: a line ends at a line feed, at a carriage return, or at a carriage
    return followed by a line feed; what follows the last terminator is a
    line when it is not empty.  [cur] holds the characters of the line being
    read, the last one first. *)
Fixpoint split_lines (cur : list ascii) (cs : list ascii) : list string :=
  match cs with
  | [] => match cur with [] => [] | _ => [ of_chars (rev cur) ] end
  | c :: cs' =>
      if is_LF c then of_chars (rev cur) :: split_lines [] cs'
      else if is_CR c
      then match cs' with
           | c' :: cs'' =>
               if is_LF c' then of_chars (rev cur) :: split_lines [] cs''
               else of_chars (rev cur) :: split_lines [] cs'
           | [] => [ of_chars (rev cur) ]
           end
      else split_lines (c :: cur) cs'
  end.

Definition read_lines (s : string) : list string := split_lines [] (chars s).

(** What the package writes while it reads [ls], the lines of the file;
    [currentLine] counts the lines read so far. *)
Fixpoint rewritten (currentLine line : nat) (text : string) (addNewLine : bool)
  (ls : list string) : string :=
  match ls with
  | [] => ""
  | originalLine :: ls' =>
      let currentLine := S currentLine in
      (if bool_decide (currentLine = line)
       then (if addNewLine then text +:+ LF else text)
       else originalLine +:+ LF)
      +:+ rewritten currentLine line text addNewLine ls'
  end.

(** The lines of the file after the rewrite, and the line that was
    replaced. *)
Definition replace_line (line : nat) (text : string) (addNewLine : bool)
  (ls : list string) : list string :=
  read_lines (rewritten 0 line text addNewLine ls).

Definition replaced_line (line : nat) (ls : list string) : option string :=
  match line with
  | O => None
  | S i => ls !! i
  end.

(** The temporary file of a rewrite. *)
Definition temp_file (name : string) : string := name +:+ ".tmp".

(** The file-type bits of [st_mode], octal 170000; [chmod] sets the twelve
    bits below them (octal 7777) and leaves the type alone.  A regular file
    has type [S_IFREG], octal 100000. *)
Definition S_IFMT : Z := 61440.
Definition S_IALLUGO : Z := 4095.
Definition S_IFREG : Z := 32768.

(** The mode of a regular file created with the permissions [perm] asked
    for: the bits of the mask are taken away. *)
Definition created_mode (mask perm : Z) : Z :=
  Z.lor S_IFREG (Z.land perm (Z.lnot mask)).

(** [parseInt(s, 8)] on a string of octal digits, as [fs.chmodSync] reads a
    mode given as a string. *)
Definition octal_digit (c : ascii) : option Z :=
  let n := Z.of_nat (nat_of_ascii c) in
  if bool_decide (48 <= n <= 55)%Z then Some (n - 48)%Z else None.

Fixpoint parse_octal_from (acc : Z) (cs : list ascii) : option Z :=
  match cs with
  | [] => Some acc
  | c :: cs' =>
      match octal_digit c with
      | Some d => parse_octal_from (8 * acc + d)%Z cs'
      | None => None
      end
  end.

Definition parseFileMode (s : string) : option Z :=
  match chars s with
  | [] => None
  | cs => parse_octal_from 0 cs
  end.

(** The effect of one call on the file system [m], and what it reports.
    [faults] tells which calls fail for a reason of their own, [status] the
    exit status of a shell command ([None]: it cannot be started), [mask]
    is the file mode creation mask.

    The rewrite of a line leaves a new file under the old name: it has the
    mode of the temporary file, which is created with permissions 666
    (octal, decimal 438) unless a file of that name is there already.  When
    the file cannot be read, the temporary file is removed. *)
Definition effect (faults : io_call -> option exn) (status : string -> option Z)
  (mask : Z) (m : gmap string file) (c : io_call)
  : gmap string file * (exn + value) :=
  match faults c with
  | Some e => (m, inl e)
  | None =>
      match c with
      | Copy src dst _ _ =>
          match copy_tree src dst m with
          | Some m' => (m', inr VUndefined)
          | None => (m, inl ("ENOENT: " +:+ src))
          end
      | CopyFile src dst =>
          match m !! src with
          | Some f => (<[dst := f]> m, inr VUndefined)
          | None => (m, inl ("ENOENT: " +:+ src))
          end
      | LineReplace name line text addNewLine =>
          match m !! name with
          | Some f =>
              let md := match m !! temp_file name with
                        | Some t => mode t
                        | None => created_mode mask 438
                        end in
              (delete (temp_file name)
                 (<[name := File md (replace_line line text addNewLine (lines f))]> m),
               inr (VLineReplace
                      {| error := None;
                         replacedText := replaced_line line (lines f) |}))
          | None => (delete (temp_file name) m, inl ("ENOENT: " +:+ name))
          end
      | Run command =>
          match status command with
          | Some 0%Z => (m, inr VUndefined)
          | Some _ => (m, inl ("Command failed: " +:+ command))
          | None => (m, inl ("spawn failed: " +:+ command))
          end
      | StatSync name =>
          match m !! name with
          | Some _ => (m, inr VUndefined)
          | None => (m, inl ("ENOENT: " +:+ name))
          end
      | ChmodSync name bits =>
          match m !! name, parseFileMode bits with
          | Some f, Some b =>
              (<[name := File (Z.lor (Z.land (mode f) S_IFMT)
                                     (Z.land b S_IALLUGO))
                              (lines f)]> m,
               inr VUndefined)
          | None, _ => (m, inl ("ENOENT: " +:+ name))
          | _, None => (m, inl ("ERR_INVALID_ARG_VALUE: " +:+ bits))
          end
      end
  end.

Definition perform (c : io_call) (w : world) : world * (exn + value) :=
  let '(m, r) := effect (fault w) (exec w) (umask w) (fs w) c in
  (set_fs m w, r).

(** ** Promises and the event loop *)

(** Calling [resolve(v)] or [reject(e)]: the first call settles the cell,
    later calls do nothing. *)
Definition settle_cell (p : nat) (s : pstate) (w : world) : world :=
  match promises w !! p with
  | Some Pending => set_promises (<[p := s]> (promises w)) w
  | _ => w
  end.

(** The reason of a rejection, when [reject] is called with a value. *)
Definition reason_of (v : value) : exn :=
  match v with
  | VLineReplace r => default "[object Object]" (error r)
  | VUndefined => "undefined"
  end.

Definition call_settle (cb : settle_fn) (v : value) (w : world) : world :=
  match cb with
  | ResolveFn p => settle_cell p (Fulfilled v) w
  | RejectFn p => settle_cell p (Rejected (reason_of v)) w
  end.

(** A pending call comes to its end: its effect takes place, the end is
    observed, and the outcome is reported.  A promise-returning call rejects
    its promise on error.  A callback-style call passes what happened to its
    callback, the error inside the result object, when it is [told]: the
    [line-replace] package never calls back when it fails to write its
    temporary file (its error handler first removes that file, and fails in
    turn). *)
Definition report (d : completion) (told : bool) (r : exn + value) (w : world)
  : world :=
  match d, r with
  | ByPromise p, inr v => settle_cell p (Fulfilled v) w
  | ByPromise p, inl e => settle_cell p (Rejected e) w
  | ByCallback cb, inr v => call_settle cb v w
  | ByCallback cb, inl e =>
      if told
      then call_settle cb (VLineReplace {| error := Some e; replacedText := None |}) w
      else w
  end.

Definition is_inr {A B} (r : A + B) : bool :=
  match r with inr _ => true | inl _ => false end.

Definition complete (t : task) (w : world) : world :=
  let '(w1, r) := perform (t_call t) w in
  report (t_done t) (negb (unreported w (t_call t))) r
         (add_event (End (t_call t) (is_inr r)) w1).

(** Everything in flight runs to its end, oldest first. *)
Definition drain (w : world) : world :=
  foldl (fun w t => complete t w) (set_queue [] w) (queue w).

Definition new_cell : M nat := fun w =>
  (Ok (length (promises w)), set_promises (promises w ++ [ Pending ]) w).

(** A call begins: it is observed and joins the calls in flight. *)
Definition submit (c : io_call) (d : completion) : M unit := fun w =>
  (Ok tt, set_queue (queue w ++ [ Task c d ]) (add_event (Begin c) w)).

Definition promise_returning (c : io_call) : M nat :=
  p ← new_cell; submit c (ByPromise p);; mret p.

(** [await p]: the function resumes once [p] is settled, with its value, or
    throws its rejection reason. *)
Definition await (p : nat) : M value := fun w =>
  let w' := drain w in
  match promises w' !! p with
  | Some (Fulfilled v) => (Ok v, w')
  | Some (Rejected e) => (Throw e, w')
  | _ => (Hang, w')
  end.

(** [new Promise(executor)]: the executor runs at once with the two
    settling functions of the new cell; if it throws, the promise is
    rejected. *)
Definition new_Promise (executor : settle_fn -> settle_fn -> M unit) : M nat :=
  fun w =>
    let '(_, w1) := new_cell w in
    let p := length (promises w) in
    match executor (ResolveFn p) (RejectFn p) w1 with
    | (Throw e, w2) => (Ok p, settle_cell p (Rejected e) w2)
    | (_, w2) => (Ok p, w2)
    end.

(** ** The collaborators *)

Record CopyOptions := { recursive : bool; overwrite : bool }.

(** [copy] of [fs-extra] *)
Definition copy (src dst : string) (o : CopyOptions) : M nat :=
  promise_returning (Copy src dst (recursive o) (overwrite o)).

(** [fs.promises.copyFile] *)
Definition copyFile (src dst : string) : M nat :=
  promise_returning (CopyFile src dst).

(** Modelled from the spec: [run] of [helpers/compile/run], the
    process-execution collaborator.  Given a shell command string, it runs
    it to completion and fails the caller if it exits non-zero. *)
Definition run (command : string) : M nat :=
  promise_returning (Run command).

Record LineReplaceOptions := {
  lr_file : string;
  lr_line : nat;
  lr_text : string;
  lr_addNewLine : bool;
  lr_callback : settle_fn
}.

(** [lineReplace] of [line-replace]: starts the rewrite and returns; the
    callback is called when the rewrite is over, or never. *)
Definition lineReplace (o : LineReplaceOptions) : M unit :=
  submit (LineReplace (lr_file o) (lr_line o) (lr_text o) (lr_addNewLine o))
         (ByCallback (lr_callback o)).

(** [require.resolve] *)
Definition require_resolve (request : string) : M string := fun w =>
  match modules w !! request with
  | Some p => (Ok p, w)
  | None => (Throw ("Cannot find module '" +:+ request +:+ "'"), w)
  end.

Record Stats := { st_mode : Z }.

(** A synchronous call: observed, carried out, and its error thrown. *)
Definition sync_call (c : io_call) : M value := fun w =>
  let '(w1, r) := perform c (add_event (Sync c) w) in
  match r with
  | inr v => (Ok v, w1)
  | inl e => (Throw e, w1)
  end.

(** [fs.statSync] *)
Definition statSync (filename : string) : M Stats := fun w =>
  match sync_call (StatSync filename) w with
  | (Ok _, w1) =>
      match fs w1 !! filename with
      | Some f => (Ok {| st_mode := mode f |}, w1)
      | None => (Throw ("ENOENT: " +:+ filename), w1)
      end
  | (Throw e, w1) => (Throw e, w1)
  | (Hang, w1) => (Hang, w1)
  end.

(** [fs.chmodSync] *)
Definition chmodSync (filename : string) (m : string) : M unit :=
  sync_call (ChmodSync filename m) ;; mret tt.

(** ** Numbers *)

(** The operands of [|] are converted to 32-bit signed integers. *)
Definition ToInt32 (z : Z) : Z := ((z + 2 ^ 31) mod 2 ^ 32 - 2 ^ 31)%Z.
Definition js_or (a b : Z) : Z := Z.lor (ToInt32 a) (ToInt32 b).

Definition digit (d : Z) : ascii := ascii_of_nat (48 + Z.to_nat d).

(** The octal digits of [n >= 0], most significant first. *)
Fixpoint octal_digits (fuel : nat) (n : Z) (acc : list ascii) : list ascii :=
  match fuel with
  | O => acc
  | S fuel' =>
      let acc' := digit (n mod 8) :: acc in
      if (n <? 8)%Z then acc' else octal_digits fuel' (n / 8) acc'
  end.

(** [n.toString(8)] for an integer [n]. *)
Definition toString8 (n : Z) : string :=
  if (n <? 0)%Z
  then "-" +:+ of_chars (octal_digits (S (Z.to_nat (Z.log2 (- n)))) (- n) [])
  else of_chars (octal_digits (S (Z.to_nat (Z.log2 n))) n []).

(** [s.slice(-k)]: the last [k] characters, all of [s] when it is shorter. *)
Definition slice_neg (k : nat) (s : string) : string :=
  of_chars (drop (String.length s - k) (chars s)).

(** ** Utils *)

Definition chmodX (filename : string) : M unit :=
  s ← statSync filename;
  let newMode := js_or (js_or (js_or (st_mode s) 64) 8) 1 in
  if bool_decide (st_mode s = newMode) then mret tt
  else
    let base8 := slice_neg 3 (toString8 newMode) in
    chmodSync filename base8.

Definition replaceFirstLine (filename line : string) : M nat :=
  new_Promise (fun resolve _ =>
    lineReplace {| lr_file := filename;
                   lr_line := 1;
                   lr_text := line;
                   lr_addNewLine := false;
                   lr_callback := resolve |}).

(** ** esbuild's plugin interface *)

Module esbuild.

(** The options a plugin can read through [build.initialOptions]. *)
Record InitialOptions := {
  format : option string;
  outfile : option string
}.

Record OnResolveArgs := { path : string; resolveDir : string }.

Record OnResolveResult := { result_path : string; external : bool }.

(** A [filter] regular expression, by the specifiers it matches. *)
Record OnResolveOptions := { filter : string -> bool }.

Definition OnResolveCallback : Type :=
  OnResolveArgs -> option OnResolveResult.

(** The [build] object handed to [setup]: the initial options and the
    callbacks registered so far. *)
Record PluginBuild := {
  initialOptions : option InitialOptions;
  onStartCallbacks : list (M unit);
  onEndCallbacks : list (M unit);
  onResolveCallbacks : list (OnResolveOptions * OnResolveCallback)
}.

Definition onStart (cb : M unit) (b : PluginBuild) : PluginBuild :=
  {| initialOptions := initialOptions b;
     onStartCallbacks := onStartCallbacks b ++ [ cb ];
     onEndCallbacks := onEndCallbacks b;
     onResolveCallbacks := onResolveCallbacks b |}.

Definition onEnd (cb : M unit) (b : PluginBuild) : PluginBuild :=
  {| initialOptions := initialOptions b;
     onStartCallbacks := onStartCallbacks b;
     onEndCallbacks := onEndCallbacks b ++ [ cb ];
     onResolveCallbacks := onResolveCallbacks b |}.

Definition onResolve (o : OnResolveOptions) (cb : OnResolveCallback)
  (b : PluginBuild) : PluginBuild :=
  {| initialOptions := initialOptions b;
     onStartCallbacks := onStartCallbacks b;
     onEndCallbacks := onEndCallbacks b;
     onResolveCallbacks := onResolveCallbacks b ++ [ (o, cb) ] |}.

Record Plugin := {
  name : string;
  setup : PluginBuild -> exn + PluginBuild
}.

(** A fresh [build] object for a compilation with the given options. *)
Definition fresh (o : option InitialOptions) : PluginBuild :=
  {| initialOptions := o;
     onStartCallbacks := [];
     onEndCallbacks := [];
     onResolveCallbacks := [] |}.

(** How the compiler consults the resolution callbacks for one import:
    in registration order, only those whose filter matches the specifier,
    until one takes a decision.  [None] leaves the import to the default
    resolution. *)
Fixpoint resolve_import (cbs : list (OnResolveOptions * OnResolveCallback))
  (args : OnResolveArgs) : option OnResolveResult :=
  match cbs with
  | [] => None
  | (o, cb) :: rest =>
      if filter o (path args)
      then match cb args with
           | Some r => Some r
           | None => resolve_import rest args
           end
      else resolve_import rest args
  end.

End esbuild.

(** [/package\.json$/]: a literal anchored at the end of the specifier. *)
Definition package_json_filter (specifier : string) : bool :=
  ends_with "package.json" specifier.

(** ** The script *)

Section Script.

(** The directory of the script, [packages/cli/helpers], and the working
    directory of the process. *)
Variable __dirname : string.
Variable cwd : string.

Definition cliLifecycle_onStart : M unit :=
  (* provide a copy of the client for studio to work *)
  p ← run "node -r esbuild-register ./helpers/copy-prisma-client.ts";
  await p ;; mret tt.

Definition cliLifecycle_onEnd : M unit :=
  (* we copy the contents from @prisma/studio to build *)
  studio ← require_resolve "@prisma/studio/package.json";
  p1 ← copy (path.join [ studio; "../dist" ]) "./build/public"
            {| recursive := true; overwrite := true |};
  await p1 ;;
  (* we copy the contents from checkpoint-client to build *)
  checkpoint ← require_resolve "checkpoint-client/package.json";
  p2 ← copyFile (path.join [ checkpoint; "../dist/child.js" ]) "./build/child.js";
  await p2 ;;
  (* we copy the contents from xdg-open to build *)
  open ← require_resolve "open/package.json";
  p3 ← copyFile (path.join [ open; "../xdg-open" ]) "./build/xdg-open";
  await p3 ;;
  (* all the Wasm modules are installed in the internals package *)
  let wasmResolveDir :=
    path.join [ __dirname; ".."; ".."; "internals"; "node_modules" ] in
  let prismaWasmFile :=
    path.join [ wasmResolveDir; "@prisma"; "prisma-schema-wasm"; "src";
                "prisma_schema_build_bg.wasm" ] in
  p4 ← copyFile prismaWasmFile "./build/prisma_schema_build_bg.wasm";
  await p4 ;;
  p5 ← replaceFirstLine "./build/index.js" ("#!/usr/bin/env node" +:+ LF);
  await p5 ;;
  chmodX "./build/index.js".

(** Manages the extra actions that are needed for the CLI to work *)
Definition cliLifecyclePlugin : esbuild.Plugin :=
  {| esbuild.name := "cliLifecyclePlugin";
     esbuild.setup := fun build =>
       (* we only do this for the first one of the builds *)
       if bool_decide (esbuild.initialOptions build ≫= esbuild.format
                       = Some "esm")
       then inr build
       else
         inr (esbuild.onEnd cliLifecycle_onEnd
                (esbuild.onStart cliLifecycle_onStart build)) |}.

(** Marks package.json as an external, regardless of specific import path
    used *)
Definition externalPackageJson : esbuild.Plugin :=
  {| esbuild.name := "externalPackageJson";
     esbuild.setup := fun build =>
       let pkgJson := path.resolve cwd [ __dirname; ".."; "package.json" ] in
       match esbuild.initialOptions build ≫= esbuild.outfile with
       | None => inl "TypeError [ERR_INVALID_ARG_TYPE]: outfile"
       | Some o =>
           let outfile := path.resolve cwd [ o ] in
           let outdir := path.dirname outfile in
           let pkgJsonRelative := path.relative cwd outdir pkgJson in
           inr (esbuild.onResolve
                  {| esbuild.filter := package_json_filter |}
                  (fun args =>
                     if bool_decide
                          (path.resolve cwd [ esbuild.resolveDir args;
                                              esbuild.path args ] = pkgJson)
                     then Some {| esbuild.result_path := pkgJsonRelative;
                                  esbuild.external := true |}
                     else None)
                  build)
       end |}.

(** The options of one build, as [helpers/compile/build] takes them:
    esbuild's options and [name], [emitTypes].  Absent fields are [None]. *)
Record BuildOptions := {
  name : string;
  entryPoints : list string;
  outfile : string;
  format : option string;
  external : option (list string);
  plugins : option (list esbuild.Plugin);
  bundle : option bool;
  emitTypes : option bool;
  minify : option bool
}.

(* we define the config for cli *)
Definition cliBuildConfig : BuildOptions :=
  {| name := "cli";
     entryPoints := [ "src/bin.ts" ];
     outfile := "build/index";
     format := None;
     external := None;
     plugins := Some [ cliLifecyclePlugin; externalPackageJson ];
     bundle := Some true;
     emitTypes := Some false;
     minify := Some true |}.

(* we define the config for preinstall *)
Definition preinstallBuildConfig : BuildOptions :=
  {| name := "preinstall";
     entryPoints := [ "scripts/preinstall.ts" ];
     outfile := "preinstall/index";
     format := None;
     external := None;
     plugins := None;
     bundle := Some true;
     emitTypes := Some false;
     minify := Some true |}.

Definition migrateBuildConfig : BuildOptions :=
  {| name := "migrate";
     entryPoints := [ "src/migrate/index.ts" ];
     outfile := "build/migrate";
     format := None;
     external := Some [ "@prisma/engines" ];
     plugins := Some [ externalPackageJson ];
     bundle := Some true;
     emitTypes := None;
     minify := None |}.

(** The argument of [build] on the last line of the script. *)
Definition batch : list BuildOptions :=
  [ cliBuildConfig; preinstallBuildConfig; migrateBuildConfig ].

Definition with_format (f : option string) (o : BuildOptions) : BuildOptions :=
  {| name := name o;
     entryPoints := entryPoints o;
     outfile := outfile o;
     format := f;
     external := external o;
     plugins := plugins o;
     bundle := bundle o;
     emitTypes := emitTypes o;
     minify := minify o |}.

(** *** The build runner *)

Definition initial_options (o : BuildOptions) : esbuild.InitialOptions :=
  {| esbuild.format := format o; esbuild.outfile := Some (outfile o) |}.

Fixpoint setup_all (ps : list esbuild.Plugin) (b : esbuild.PluginBuild)
  : exn + esbuild.PluginBuild :=
  match ps with
  | [] => inr b
  | p :: ps' =>
      match esbuild.setup p b with
      | inl e => inl e
      | inr b' => setup_all ps' b'
      end
  end.

Fixpoint run_callbacks (cbs : list (M unit)) : M unit :=
  match cbs with
  | [] => mret tt
  | cb :: cbs' => cb ;; run_callbacks cbs'
  end.

(** Modelled from the spec: the compiler collaborator transforming the
    sources of one target.  It returns success, with the output file
    emitted, or a build error (a syntax or type error in the sources), with
    nothing emitted. *)
Definition transform (o : BuildOptions) : M unit := fun w =>
  match compile_error w (name o) with
  | Some e => (Throw e, w)
  | None => (Ok tt, add_event (Emit (outfile o)) w)
  end.

(** Modelled from the spec: the compiler collaborator on one target.  It
    sets the target's plugins up, calls [onStart] before transforming
    sources, performs the build, and calls [onEnd] after emitting files; a
    failing hook is a build error. *)
Definition compile (o : BuildOptions) : M unit :=
  match setup_all (default [] (plugins o))
                  (esbuild.fresh (Some (initial_options o))) with
  | inl e => throw e
  | inr b =>
      run_callbacks (esbuild.onStartCallbacks b) ;;
      transform o ;;
      run_callbacks (esbuild.onEndCallbacks b)
  end.

(** Modelled from the spec: [build] of [helpers/compile/build], the Build
    Runner.  All descriptors are attempted in order, and any single
    descriptor's failure aborts the whole pipeline: the runner neither
    catches nor retries. *)
Fixpoint build (targets : list BuildOptions) : M unit :=
  match targets with
  | [] => mret tt
  | o :: rest => compile o ;; build rest
  end.

End Script.

(** * Vocabulary of the properties *)

(** How a call that was begun is settled when it is over: a
    promise-returning call rejects on error, a callback-style call whose
    callback is a [resolve] function fulfils with the error inside when it
    is [told], and is left pending otherwise. *)
Definition settled (by_callback told : bool) (r : exn + value) : pstate :=
  match r with
  | inr v => Fulfilled v
  | inl e =>
      if by_callback
      then if told
           then Fulfilled (VLineReplace {| error := Some e; replacedText := None |})
           else Pending
      else Rejected e
  end.

(** A call carried out on the spot: begun, over, and its outcome in a new
    promise cell. *)
Definition awaited (by_callback : bool) (c : io_call) : M value := fun w =>
  let '(m, r) := effect (fault w) (exec w) (umask w) (fs w) c in
  let s := settled by_callback (negb (unreported w c)) r in
  (match s with
   | Fulfilled v => Ok v
   | Rejected e => Throw e
   | Pending => Hang
   end,
   World m (modules w) (exec w) (fault w) (unreported w) (compile_error w)
         (umask w) (promises w ++ [ s ]) []
         (log w ++ [ Begin c; End c (is_inr r) ])).

(** A plain line: characters of the ASCII set, none of them a terminator.
    This is what the compiler emits and what the hook writes.  (Outside that
    set the package decodes and encodes the text it copies, and a reader of
    lines may also end a line at the separators U+2028 and U+2029.) *)
Definition plain (s : string) : bool :=
  forallb (fun c => negb (is_LF c || is_CR c) && Nat.ltb (nat_of_ascii c) 128)
          (chars s).

(** Lines written one after the other, each followed by a line feed. *)
Fixpoint unlines (ls : list string) : string :=
  match ls with
  | [] => ""
  | l :: ls' => (l +:+ LF) +:+ unlines ls'
  end.

(** Whether a callback-style call gets to call its callback: when it
    succeeds, and when its failure is reported. *)
Definition calls_back (w : world) (c : io_call) : bool :=
  is_inr (effect (fault w) (exec w) (umask w) (fs w) c).2
  || negb (unreported w c).

(** The pre-build step of [onStart] and the six staging steps of [onEnd]. *)
Inductive stage :=
| PreBuild
| StudioCopy
| ChildCopy
| XdgCopy
| WasmCopy
| FirstLine
| Permission.

#[export] Instance stage_eq_dec : EqDecision stage.
Proof. solve_decision. Defined.

(** The step a call belongs to, by what it is asked to do. *)
Definition stage_of (c : io_call) : option stage :=
  match c with
  | Copy _ dst r o =>
      if bool_decide (dst = "./build/public") && r && o
      then Some StudioCopy else None
  | CopyFile _ dst =>
      if bool_decide (dst = "./build/child.js") then Some ChildCopy
      else if bool_decide (dst = "./build/xdg-open") then Some XdgCopy
      else if bool_decide (dst = "./build/prisma_schema_build_bg.wasm")
      then Some WasmCopy
      else None
  | LineReplace name line text nl =>
      if bool_decide (name = "./build/index.js") && bool_decide (line = 1)
         && bool_decide (text = "#!/usr/bin/env node" +:+ LF) && negb nl
      then Some FirstLine else None
  | StatSync name | ChmodSync name _ =>
      if bool_decide (name = "./build/index.js") then Some Permission else None
  | Run command =>
      if bool_decide
           (command = "node -r esbuild-register ./helpers/copy-prisma-client.ts")
      then Some PreBuild else None
  end.

Inductive phase :=
| Starts (s : stage)
| Finishes (s : stage)
| Reads (s : stage)
| Writes (s : stage)
| Other.

#[export] Instance phase_eq_dec : EqDecision phase.
Proof. solve_decision. Defined.

Definition phase_of (e : event) : phase :=
  match e with
  | Begin c => from_option Starts Other (stage_of c)
  | End c _ => from_option Finishes Other (stage_of c)
  | Sync (ChmodSync name m) => from_option Writes Other (stage_of (ChmodSync name m))
  | Sync c => from_option Reads Other (stage_of c)
  | Emit _ => Other
  end.

Definition phases (evs : list event) : list phase := phase_of <$> evs.

(** The staging steps of [onEnd] in the order of the script, as an observer
    sees them when all of them take place: each copy and the rewrite start
    and finish before the next step starts; the permission step reads the
    mode and writes it. *)
Definition staging_order : list phase :=
  [ Starts StudioCopy; Finishes StudioCopy;
    Starts ChildCopy; Finishes ChildCopy;
    Starts XdgCopy; Finishes XdgCopy;
    Starts WasmCopy; Finishes WasmCopy;
    Starts FirstLine; Finishes FirstLine;
    Reads Permission; Writes Permission ].

(** All of it but the write of the mode, which is skipped when the mode is
    already right. *)
Definition staging_required : list phase := take 11 staging_order.

(** [runs m lo hi]: started in an idle world, [m] leaves an idle world;
    what it lets observe is an initial part of [hi], and contains [lo] when
    [m] returns.  It waits for ever only after the rewrite of the first line
    is over. *)
Definition runs {A} (m : M A) (lo hi : list phase) : Prop :=
  forall w, idle w ->
    exists r w' evs,
      m w = (r, w') /\ idle w' /\
      (r = Hang -> last (phases evs) = Some (Finishes FirstLine)) /\
      log w' = log w ++ evs /\
      phases evs `prefix_of` hi /\
      (forall a, r = Ok a -> lo `prefix_of` phases evs).

(** How often a phase is observed. *)
Definition times (p : phase) (evs : list event) : nat :=
  length (filter (fun q => q = p) (phases evs)).

(** The mode [chmodX] leaves on a file of mode [md]: unchanged when the
    three execute bits (octal 111) are set, otherwise the file type and the
    last three octal digits of the new mode. *)
Definition chmodX_mode (md : Z) : Z :=
  if bool_decide (Z.lor md 73 = md) then md
  else Z.lor (Z.land md S_IFMT) (Z.land (Z.lor md 73) 511).

(** What [setup] of the lifecycle plugin registers on a target that is not
    in [esm] format: [onStart], then [onEnd]. *)
Definition with_hooks (dir : string) (b : esbuild.PluginBuild)
  : esbuild.PluginBuild :=
  esbuild.onEnd (cliLifecycle_onEnd dir) (esbuild.onStart cliLifecycle_onStart b).

(** The pre-build command of [onStart]. *)
Definition prebuild : io_call :=
  Run "node -r esbuild-register ./helpers/copy-prisma-client.ts".

(** The rewrite of the first line of the output file in [onEnd]. *)
Definition first_line_rewrite : io_call :=
  LineReplace "./build/index.js" 1 ("#!/usr/bin/env node" +:+ LF) false.



(** ** A workspace to run the script in *)

Definition demo_dirname : string := "/ws/packages/cli/helpers".
Definition demo_cwd : string := "/ws/packages/cli".

Definition demo_fs : gmap string file :=
  list_to_map
    [ ("/ws/node_modules/@prisma/studio/dist/index.html", File 33188 [ "<html>" ]);
      ("/ws/node_modules/@prisma/studio/dist/assets/app.js", File 33188 [ "app" ]);
      ("/ws/node_modules/checkpoint-client/dist/child.js", File 33188 [ "child" ]);
      ("/ws/node_modules/open/xdg-open", File 33261 [ "#!/bin/sh" ]);
      ("/ws/packages/internals/node_modules/@prisma/prisma-schema-wasm/src/prisma_schema_build_bg.wasm",
       File 33188 [ "wasm" ]);
      ("./build/index.js", File 33188 [ "console.log(1)"; "x=2" ]) ].

Definition demo_modules : gmap string string :=
  list_to_map
    [ ("@prisma/studio/package.json", "/ws/node_modules/@prisma/studio/package.json");
      ("checkpoint-client/package.json", "/ws/node_modules/checkpoint-client/package.json");
      ("open/package.json", "/ws/node_modules/open/package.json") ].

(** Everything is in place and every call succeeds. *)
Definition demo_world : world :=
  World demo_fs demo_modules (fun _ => Some 0%Z) (fun _ => None)
        (fun _ => false) (fun _ => None) 18 [] [] [].

(** The same workspace, where the output file cannot be read and the
    rewrite of the first line fails. *)
Definition rewrite_fails (c : io_call) : option exn :=
  match c with
  | LineReplace _ _ _ _ => Some "EACCES: permission denied"
  | _ => None
  end.

Definition demo_world_rewrite_fails : world :=
  World demo_fs demo_modules (fun _ => Some 0%Z) rewrite_fails
        (fun _ => false) (fun _ => None) 18 [] [] [].

(** The same workspace, where the temporary file of the rewrite cannot be
    written: the failure is not reported. *)
Definition demo_world_rewrite_lost : world :=
  World demo_fs demo_modules (fun _ => Some 0%Z) rewrite_fails
        (fun _ => true) (fun _ => None) 18 [] [] [].

(** The same workspace, where the output file is empty. *)
Definition demo_world_empty_output : world :=
  World (<["./build/index.js" := File 33188 []]> demo_fs) demo_modules
        (fun _ => Some 0%Z) (fun _ => None) (fun _ => false) (fun _ => None)
        18 [] [] [].

(** The same workspace, where the pre-build command exits with status 1. *)
Definition demo_world_prebuild_fails : world :=
  World demo_fs demo_modules (fun _ => Some 1%Z) (fun _ => None)
        (fun _ => false) (fun _ => None) 18 [] [] [].

(** A workspace with one set-user-ID file of mode 104644 (octal). *)
Definition demo_world_setuid : world :=
  World {[ "./build/index.js" := File 35236 [ "console.log(1)" ] ]} ∅
        (fun _ => Some 0%Z) (fun _ => None) (fun _ => false) (fun _ => None)
        18 [] [] [].

(** The same file with the three execute bits set, mode 104755 (octal). *)
Definition demo_world_setuid_x : world :=
  World {[ "./build/index.js" := File 35309 [ "console.log(1)" ] ]} ∅
        (fun _ => Some 0%Z) (fun _ => None) (fun _ => false) (fun _ => None)
        18 [] [] [].

(** ** More vocabulary: what a call may write, the hook step by step *)

(** The paths a call may write. *)
Definition footprint (c : io_call) (k : string) : bool :=
  match c with
  | Copy _ dst _ _ => starts_with dst k
  | CopyFile _ dst => bool_decide (k = dst)
  | LineReplace name _ _ _ =>
      bool_decide (k = name) || bool_decide (k = temp_file name)
  | ChmodSync name _ => bool_decide (k = name)
  | StatSync _ | Run _ => false
  end.

(** The output directory of the cli target. *)
Definition in_build (k : string) : bool := starts_with "./build/" k.

(** [onEnd] with every awaited call carried out on the spot. *)
Definition onEnd_steps (dir : string) : M unit :=
  studio ← require_resolve "@prisma/studio/package.json";
  awaited false (Copy (path.join [ studio; "../dist" ]) "./build/public" true true) ;;
  checkpoint ← require_resolve "checkpoint-client/package.json";
  awaited false (CopyFile (path.join [ checkpoint; "../dist/child.js" ])
                          "./build/child.js") ;;
  open ← require_resolve "open/package.json";
  awaited false (CopyFile (path.join [ open; "../xdg-open" ]) "./build/xdg-open") ;;
  awaited false
    (CopyFile
       (path.join [ path.join [ dir; ".."; ".."; "internals"; "node_modules" ];
                    "@prisma"; "prisma-schema-wasm"; "src";
                    "prisma_schema_build_bg.wasm" ])
       "./build/prisma_schema_build_bg.wasm") ;;
  awaited true (LineReplace "./build/index.js" 1 ("#!/usr/bin/env node" +:+ LF) false) ;;
  chmodX "./build/index.js".

(** The world after a call that went through, carried out on the spot. *)
Definition after (c : io_call) (m : gmap string file) (v : value) (w : world)
  : world :=
  World m (modules w) (exec w) (fault w) (unreported w) (compile_error w)
        (umask w) (promises w ++ [ Fulfilled v ]) []
        (log w ++ [ Begin c; End c true ]).

(** [m] and [m'] do the same from an idle world, and leave it idle. *)
Definition same_idle {A} (m m' : M A) : Prop :=
  forall w, idle w -> m w = m' w /\ idle (m' w).2.

(** [m] is a step from [R]: it takes every world to a world related to it. *)
Definition steps_in {A} (R : world -> world -> Prop) (m : M A) : Prop :=
  forall w, R w (m w).2.

(** [w'] differs from [w] in files of [D] at most, promises and log apart. *)
Definition writes_within (D : string -> bool) (w w' : world) : Prop :=
  (forall k, D k = false -> fs w' !! k = fs w !! k) /\
  modules w' = modules w /\ exec w' = exec w /\ fault w' = fault w.

(** A failed call other than the rewrite of the first line is the last
    thing observed, and the program throws. *)
Definition aborts_on_failure {A} (r : res A) (evs : list event) : Prop :=
  forall c, End c false ∈ evs -> stage_of c <> Some FirstLine ->
            (exists e, r = Throw e) /\ last evs = Some (End c false).

Definition fail_fast {A} (m : M A) : Prop :=
  forall w, idle w ->
    exists r w' evs,
      m w = (r, w') /\ idle w' /\ log w' = log w ++ evs /\
      aborts_on_failure r evs.

(** [w] has the files, the module table and the oracles of [w0], and
    nothing in flight. *)
Definition settled_like (w0 w : world) : Prop :=
  fs w = fs w0 /\ modules w = modules w0 /\ exec w = exec w0 /\
  fault w = fault w0 /\ unreported w = unreported w0 /\ umask w = umask w0 /\
  idle w.

(** The demo workspace where the output file is private to its owner, mode
    100600 (octal). *)
Definition demo_world_private : world :=
  set_fs (<["./build/index.js" := File 33152 [ "console.log(1)"; "x=2" ]]> demo_fs)
         demo_world.

(** The demo workspace after a run of [onEnd]. *)
Definition demo_staged : world := (cliLifecycle_onEnd demo_dirname demo_world).2.

Definition demo_private_staged : world :=
  (cliLifecycle_onEnd demo_dirname demo_world_private).2.

(** The demo workspace without installed packages, and without the
    xdg-open helper. *)
Definition demo_world_no_packages : world :=
  World demo_fs ∅ (fun _ => Some 0%Z) (fun _ => None)
        (fun _ => false) (fun _ => None) 18 [] [] [].

Definition demo_world_no_xdg : world :=
  set_fs (delete "/ws/node_modules/open/xdg-open" demo_fs) demo_world.

(** * Properties *)

(** ** Paths *)

Example path_join_dotdot :
  path.join [ "/ws/node_modules/@prisma/studio/package.json"; "../dist" ]
  = "/ws/node_modules/@prisma/studio/dist".
Proof. vm_compute. reflexivity. Qed.

Example path_resolve_relative :
  path.resolve "/ws/packages/cli" [ "build/index" ] = "/ws/packages/cli/build/index".
Proof. vm_compute. reflexivity. Qed.

Example path_resolve_absolute_wins :
  path.resolve "/ws/packages/cli" [ "/proj/pkg/src"; "../package.json" ]
  = "/proj/pkg/package.json".
Proof. vm_compute. reflexivity. Qed.

Example path_dirname_file :
  path.dirname "/ws/packages/cli/build/index" = "/ws/packages/cli/build".
Proof. vm_compute. reflexivity. Qed.

Example path_relative_sibling :
  path.relative "/ws" "/ws/packages/cli/build" "/ws/packages/cli/package.json"
  = "../package.json".
Proof. vm_compute. reflexivity. Qed.

(** ** Lines *)

Lemma chars_app a b : chars (a +:+ b) = chars a ++ chars b.
Proof.
  unfold chars. induction a as [|x a IH]; [done|].
  change (String x a +:+ b) with (String x (a +:+ b)). cbn. by rewrite IH.
Qed.

Lemma length_chars s : String.length s = length (chars s).
Proof. unfold chars. induction s as [|x s IH]; cbn; [done | by rewrite IH]. Qed.

Lemma of_chars_chars s : of_chars (chars s) = s.
Proof. apply string_of_list_ascii_of_string. Qed.

Lemma temp_file_ne name : name <> temp_file name.
Proof.
  unfold temp_file. intros H. apply (f_equal String.length) in H.
  rewrite !length_chars, chars_app, length_app in H. cbn in H. lia.
Qed.

(** A line without terminator is read up to the line feed that follows
    it. *)
Lemma split_lines_plain cs : forall cur rest,
  forallb (fun c => negb (is_LF c || is_CR c)) cs = true ->
  split_lines cur (cs ++ chars LF ++ rest)
  = of_chars (rev cur ++ cs) :: split_lines [] rest.
Proof.
  induction cs as [|c cs IH]; intros cur rest Hcs.
  - cbn. by rewrite app_nil_r.
  - cbn in Hcs. apply andb_prop in Hcs as [Hc Hcs].
    apply negb_true_iff, orb_false_elim in Hc as [Hlf Hcr].
    cbn [app split_lines]. rewrite Hlf, Hcr, IH by done.
    cbn [rev]. by rewrite <- app_assoc.
Qed.

Lemma plain_no_terminator t :
  plain t = true -> forallb (fun c => negb (is_LF c || is_CR c)) (chars t) = true.
Proof.
  unfold plain. induction (chars t) as [|c cs IH]; [done|]. cbn.
  intros [[-> _]%andb_prop Hcs]%andb_prop. by apply IH.
Qed.

Lemma read_lines_cons t s :
  plain t = true -> read_lines ((t +:+ LF) +:+ s) = t :: read_lines s.
Proof.
  intros Ht%plain_no_terminator. unfold read_lines. rewrite !chars_app, <- app_assoc.
  rewrite split_lines_plain by done. cbn [rev app]. by rewrite of_chars_chars.
Qed.

(** Lines written one after the other, each with its line feed, are read
    back as they are. *)
Lemma read_lines_unlines ls :
  forallb plain ls = true -> read_lines (unlines ls) = ls.
Proof.
  induction ls as [|l ls IH]; intros Hls; [done|].
  cbn in Hls. apply andb_prop in Hls as [Hl Hls].
  cbn [unlines]. by rewrite read_lines_cons, IH.
Qed.

(** Past the line to replace, the package copies the lines. *)
Lemma rewritten_past n line text nl ls :
  line <= n -> rewritten n line text nl ls = unlines ls.
Proof.
  revert n. induction ls as [|l ls IH]; intros n Hn; [done|].
  cbn [rewritten unlines]. rewrite bool_decide_eq_false_2 by lia.
  by rewrite IH by lia.
Qed.

(** The rewrite of the first line by a text that ends its line. *)
Lemma replace_line_first text first rest :
  plain text = true -> forallb plain rest = true ->
  replace_line 1 (text +:+ LF) false (first :: rest) = text :: rest.
Proof.
  intros Ht Hrest. unfold replace_line. cbn [rewritten].
  rewrite bool_decide_eq_true_2 by done.
  by rewrite rewritten_past, read_lines_cons, read_lines_unlines.
Qed.

Example replace_line_directive :
  replace_line 1 ("#!/usr/bin/env node" +:+ LF) false [ "console.log(1)"; "x=2" ]
  = [ "#!/usr/bin/env node"; "x=2" ].
Proof. vm_compute. reflexivity. Qed.

Example replace_line_no_terminator :
  replace_line 1 "#!/usr/bin/env node" false [ "console.log(1)"; "x=2" ]
  = [ "#!/usr/bin/env nodex=2" ].
Proof. vm_compute. reflexivity. Qed.

Example replace_line_addNewLine :
  replace_line 2 "y=3" true [ "console.log(1)"; "x=2"; "z=4" ]
  = [ "console.log(1)"; "y=3"; "z=4" ].
Proof. vm_compute. reflexivity. Qed.

Example read_lines_terminators :
  read_lines ("a" +:+ CR +:+ LF +:+ "b" +:+ CR +:+ "c" +:+ LF +:+ LF +:+ "d")
  = [ "a"; "b"; "c"; ""; "d" ].
Proof. vm_compute. reflexivity. Qed.

(** ** Programs: basic facts *)

Lemma bind_Ok {A B} (m : M A) (k : A -> M B) w a w' :
  m w = (Ok a, w') -> (m ≫= k) w = k a w'.
Proof. intros H. unfold mbind, M_bind. by rewrite H. Qed.

Lemma bind_Throw {A B} (m : M A) (k : A -> M B) w e w' :
  m w = (Throw e, w') -> (m ≫= k) w = (Throw e, w').
Proof. intros H. unfold mbind, M_bind. by rewrite H. Qed.

Lemma bind_Hang {A B} (m : M A) (k : A -> M B) w w' :
  m w = (Hang, w') -> (m ≫= k) w = (Hang, w').
Proof. intros H. unfold mbind, M_bind. by rewrite H. Qed.

Lemma bind_assoc {A B C} (m : M A) (f : A -> M B) (g : B -> M C) w :
  ((m ≫= f) ≫= g) w = (m ≫= (fun a => f a ≫= g)) w.
Proof. unfold mbind, M_bind. destruct (m w) as [[a|e|] w']; reflexivity. Qed.

Lemma lookup_fresh (ps : list pstate) s : (ps ++ [ s ]) !! length ps = Some s.
Proof. by rewrite lookup_app_r, Nat.sub_diag by lia. Qed.

Lemma insert_fresh (ps : list pstate) s s' :
  <[length ps := s']> (ps ++ [ s ]) = ps ++ [ s' ].
Proof. by rewrite insert_app_r_alt, Nat.sub_diag by lia. Qed.

(** Two worlds built field by field are the same. *)
Ltac world_eq :=
  lazy [set_promises add_event set_fs set_queue
        fs modules exec fault unreported compile_error umask promises queue log];
  rewrite <- ?app_assoc; reflexivity.

(** Beginning a promise-returning call in an idle world and awaiting its
    promise amounts to carrying the call out on the spot. *)
Lemma await_promise_returning c w :
  idle w ->
  (p ← promise_returning c; await p) w = awaited false c w.
Proof.
  intros Hq. destruct w as [f m e fa un ce um ps q l]. unfold idle in Hq; cbn in Hq. subst q.
  unfold awaited, promise_returning, new_cell, submit, await, drain, complete, perform.
  unfold mbind, M_bind, mret, M_ret. cbn.
  destruct (effect fa e um f c) as [m' [err|v]]; cbn;
    unfold settle_cell; cbn; rewrite lookup_fresh; cbn;
    rewrite ?insert_fresh, ?lookup_fresh; world_eq.
Qed.

(** The same for [replaceFirstLine]: the outcome is in the promise cell when
    the package calls back, and the cell stays pending when it does not. *)
Lemma await_replaceFirstLine filename line w :
  idle w ->
  (p ← replaceFirstLine filename line; await p) w
  = awaited true (LineReplace filename 1 line false) w.
Proof.
  intros Hq. destruct w as [f m e fa un ce um ps q l]. unfold idle in Hq; cbn in Hq. subst q.
  unfold awaited, replaceFirstLine, new_Promise, lineReplace, new_cell, submit,
    await, drain, complete, perform.
  unfold mbind, M_bind, mret, M_ret. cbn.
  destruct (effect fa e um f _) as [m' [err|v]]; cbn.
  - destruct (un _); cbn.
    + rewrite lookup_fresh. world_eq.
    + unfold settle_cell; cbn; rewrite lookup_fresh; cbn.
      rewrite ?insert_fresh, ?lookup_fresh. world_eq.
  - unfold settle_cell; cbn; rewrite lookup_fresh; cbn;
      rewrite ?insert_fresh, ?lookup_fresh; world_eq.
Qed.

Lemma awaited_idle b c w r w' : awaited b c w = (r, w') -> idle w'.
Proof.
  unfold awaited. destruct (effect _ _ _ _ _) as [m x]. intros [= <- <-]. done.
Qed.

Lemma phases_app evs1 evs2 : phases (evs1 ++ evs2) = phases evs1 ++ phases evs2.
Proof. apply fmap_app. Qed.

Lemma runs_ext {A} (m m' : M A) lo hi :
  (forall w, idle w -> m w = m' w) -> runs m' lo hi -> runs m lo hi.
Proof.
  intros Heq H w Hw. destruct (H w Hw) as (r & w' & evs & Hm & Hrest).
  exists r, w', evs. by rewrite Heq.
Qed.

Lemma runs_ret {A} (a : A) : runs (mret a) [] [].
Proof.
  intros w Hw. exists (Ok a), w, []. rewrite app_nil_r.
  repeat split; done.
Qed.

Lemma runs_bind {A B} (m : M A) (k : A -> M B) l lo hi :
  runs m l l -> (forall a, runs (k a) lo hi) ->
  runs (m ≫= k) (l ++ lo) (l ++ hi).
Proof.
  intros Hm Hk w Hw.
  destruct (Hm w Hw) as (r & w1 & evs & Em & Hw1 & Hr & Hlog & Hhi & Hlo).
  destruct r as [a|e|].
  - assert (phases evs = l) as Hl.
    { apply (anti_symm prefix); [done | by apply (Hlo a)]. }
    destruct (Hk a w1 Hw1) as (r2 & w2 & evs2 & Ek & Hw2 & Hr2 & Hlog2 & Hhi2 & Hlo2).
    exists r2, w2, (evs ++ evs2).
    rewrite (bind_Ok _ _ _ _ _ Em), Hlog2, Hlog, phases_app, Hl, <- app_assoc.
    repeat split; try done.
    + intros Hh. by rewrite last_app, (Hr2 Hh).
    + by apply prefix_app.
    + intros b Hb. apply prefix_app. by apply (Hlo2 b).
  - exists (Throw e), w1, evs. rewrite (bind_Throw _ _ _ _ _ Em).
    repeat split; try done. by apply prefix_app_r.
  - exists Hang, w1, evs. rewrite (bind_Hang _ _ _ _ Em).
    split; [done|]. split; [done|]. split; [intros _; by apply Hr|]. split; [done|].
    split; [by apply prefix_app_r | done].
Qed.

Lemma runs_cons {A B} (m : M A) (k : A -> M B) p lo hi :
  runs m [ p ] [ p ] -> (forall a, runs (k a) lo hi) ->
  runs (m ≫= k) (p :: lo) (p :: hi).
Proof. apply (runs_bind m k [ p ]). Qed.

Lemma runs_silent {A B} (m : M A) (k : A -> M B) lo hi :
  runs m [] [] -> (forall a, runs (k a) lo hi) -> runs (m ≫= k) lo hi.
Proof. apply (runs_bind m k []). Qed.

Lemma runs_weaken {A} (m : M A) lo lo' hi hi' :
  lo' `prefix_of` lo -> hi `prefix_of` hi' -> runs m lo hi -> runs m lo' hi'.
Proof.
  intros Hlo Hhi H w Hw.
  destruct (H w Hw) as (r & w' & evs & Em & Hw' & Hr & Hlog & H1 & H2).
  exists r, w', evs. repeat split; try done.
  - by etrans.
  - intros a Ha. etrans; [done | by apply (H2 a)].
Qed.

Lemma runs_require_resolve request : runs (require_resolve request) [] [].
Proof.
  intros w Hw. unfold require_resolve.
  destruct (modules w !! request) as [p|];
    [exists (Ok p), w, [] | eexists (Throw _), w, []];
    rewrite app_nil_r; repeat split; done.
Qed.

Lemma runs_awaited b c s :
  stage_of c = Some s ->
  (b = true -> s = FirstLine) ->
  runs (awaited b c) [ Starts s; Finishes s ] [ Starts s; Finishes s ].
Proof.
  intros Hs Hb w Hw. unfold awaited.
  destruct (effect _ _ _ _ _) as [m r].
  eexists _, _, [ Begin c; End c (is_inr r) ].
  split; [reflexivity|]. unfold phases. cbn. rewrite Hs. cbn.
  repeat split; try done.
  destruct r as [e|v]; cbn; [|done].
  destruct b; [|done]. by rewrite Hb.
Qed.

Lemma runs_await {B} c s (k : M B) lo hi :
  stage_of c = Some s -> runs k lo hi ->
  runs (p ← promise_returning c; await p ;; k)
       (Starts s :: Finishes s :: lo) (Starts s :: Finishes s :: hi).
Proof.
  intros Hs Hk.
  apply (runs_ext _ (awaited false c ≫= fun _ => k)).
  - intros w Hw. rewrite <- bind_assoc.
    unfold mbind at 1 3, M_bind. by rewrite await_promise_returning.
  - apply (runs_bind _ _ [ _; _ ]); [by apply runs_awaited | done].
Qed.

Lemma runs_await_replaceFirstLine {B} filename line (k : M B) lo hi :
  stage_of (LineReplace filename 1 line false) = Some FirstLine ->
  runs k lo hi ->
  runs (p ← replaceFirstLine filename line; await p ;; k)
       (Starts FirstLine :: Finishes FirstLine :: lo)
       (Starts FirstLine :: Finishes FirstLine :: hi).
Proof.
  intros Hs Hk.
  apply (runs_ext _ (awaited true (LineReplace filename 1 line false) ≫= fun _ => k)).
  - intros w Hw. rewrite <- bind_assoc.
    unfold mbind at 1 3, M_bind. by rewrite await_replaceFirstLine.
  - apply (runs_bind _ _ [ _; _ ]); [by apply runs_awaited | done].
Qed.

Lemma runs_sync_call c p :
  phase_of (Sync c) = p -> runs (sync_call c) [ p ] [ p ].
Proof.
  intros Hp w Hw. unfold sync_call, perform. cbn.
  destruct (effect _ _ _ _ _) as [m [e|v]];
    eexists _, _, [ Sync c ]; (split; [reflexivity|]);
    unfold phases; cbn [fmap list_fmap]; rewrite Hp;
    repeat split; done.
Qed.

Lemma runs_statSync filename :
  stage_of (StatSync filename) = Some Permission ->
  runs (statSync filename) [ Reads Permission ] [ Reads Permission ].
Proof.
  intros Hs w Hw.
  destruct (runs_sync_call (StatSync filename) (Reads Permission)) with (w := w)
    as (r & w' & evs & Em & Hw' & Hr & Hlog & Hhi & Hlo); [|done|].
  { cbn [phase_of]. by rewrite Hs. }
  unfold statSync. rewrite Em.
  destruct r as [v|e|]; [|by exists (Throw e), w', evs|].
  2:{ exists Hang, w', evs. split; [done|]. split; [done|].
      split; [intros _; by apply Hr|]. by repeat split. }
  destruct (fs w' !! filename) as [f|].
  - exists (Ok {| st_mode := mode f |}), w', evs. repeat split; try done.
    intros a _. by apply (Hlo v).
  - eexists (Throw _), w', evs. repeat split; done.
Qed.

Lemma runs_chmodSync filename m :
  stage_of (StatSync filename) = Some Permission ->
  runs (chmodSync filename m) [ Writes Permission ] [ Writes Permission ].
Proof.
  intros Hs. unfold chmodSync. apply (runs_bind _ _ [ _ ] [] []).
  - apply runs_sync_call. cbn [phase_of]. cbn in Hs |- *. by rewrite Hs.
  - intros _. apply runs_ret.
Qed.

Lemma runs_chmodX filename :
  stage_of (StatSync filename) = Some Permission ->
  runs (chmodX filename) [ Reads Permission ] [ Reads Permission; Writes Permission ].
Proof.
  intros Hs.
  unfold chmodX. apply (runs_cons _ _ _ [] [ _ ]); [by apply runs_statSync|].
  intros s. case_bool_decide.
  - eapply runs_weaken; [| |apply runs_ret]; [done | apply prefix_nil].
  - eapply runs_weaken; [| |by apply runs_chmodSync]; [apply prefix_nil | done].
Qed.

Lemma runs_onEnd dir :
  runs (cliLifecycle_onEnd dir) staging_required staging_order.
Proof.
  unfold cliLifecycle_onEnd, staging_required, staging_order, copy, copyFile.
  cbn [take].
  apply runs_silent; [apply runs_require_resolve | intros studio].
  apply runs_await; [done|].
  apply runs_silent; [apply runs_require_resolve | intros checkpoint].
  apply runs_await; [done|].
  apply runs_silent; [apply runs_require_resolve | intros open].
  apply runs_await; [done|].
  apply runs_await; [done|].
  apply runs_await_replaceFirstLine; [done|].
  by apply runs_chmodX.
Qed.

Lemma runs_onStart :
  runs cliLifecycle_onStart [ Starts PreBuild; Finishes PreBuild ]
       [ Starts PreBuild; Finishes PreBuild ].
Proof.
  unfold cliLifecycle_onStart, run.
  apply runs_await; [done | apply runs_ret].
Qed.

(** ** Numbers *)

Lemma ToInt32_small z : (0 <= z < 2 ^ 31)%Z -> ToInt32 z = z.
Proof.
  intros H. unfold ToInt32.
  rewrite Z.mod_small; lia.
Qed.

Lemma lor_small a b :
  (0 <= a < 2 ^ 31)%Z -> (0 <= b < 2 ^ 31)%Z -> (0 <= Z.lor a b < 2 ^ 31)%Z.
Proof.
  intros Ha Hb. split; [apply Z.lor_nonneg; lia|].
  destruct (Z.eq_dec (Z.lor a b) 0%Z) as [->|Hne]; [lia|].
  apply Z.log2_lt_pow2; [assert (0 <= Z.lor a b)%Z by (apply Z.lor_nonneg; lia); lia|].
  rewrite Z.log2_lor by lia.
  apply Z.max_lub_lt.
  - destruct (Z.eq_dec a 0%Z) as [->|]; [done|]. apply Z.log2_lt_pow2; lia.
  - destruct (Z.eq_dec b 0%Z) as [->|]; [done|]. apply Z.log2_lt_pow2; lia.
Qed.

Lemma js_or_small a b :
  (0 <= a < 2 ^ 31)%Z -> (0 <= b < 2 ^ 31)%Z ->
  js_or a b = Z.lor a b /\ (0 <= js_or a b < 2 ^ 31)%Z.
Proof.
  intros Ha Hb. unfold js_or. rewrite !ToInt32_small by done.
  split; [done | by apply lor_small].
Qed.

Lemma newMode_lor md :
  (0 <= md < 2 ^ 31)%Z -> js_or (js_or (js_or md 64) 8) 1 = Z.lor md 73.
Proof.
  intros H.
  destruct (js_or_small md 64) as [E1 B1]; [lia..|].
  destruct (js_or_small (js_or md 64) 8) as [E2 B2]; [lia..|].
  destruct (js_or_small (js_or (js_or md 64) 8) 1) as [E3 _]; [lia..|].
  rewrite E3, E2, E1, <- !Z.lor_assoc. done.
Qed.

Lemma octal_digit_digit d : (0 <= d < 8)%Z -> octal_digit (digit d) = Some d.
Proof.
  intros H.
  assert (d = 0 \/ d = 1 \/ d = 2 \/ d = 3 \/ d = 4 \/ d = 5 \/ d = 6 \/ d = 7)%Z
    as Hd by lia.
  destruct Hd as [->|[->|[->|[->|[->|[->|[->| ->]]]]]]]; reflexivity.
Qed.

Lemma octal_digits_acc fuel : forall n acc,
  octal_digits fuel n acc = octal_digits fuel n [] ++ acc.
Proof.
  induction fuel as [|fuel IH]; intros n acc; cbn; [done|].
  destruct (n <? 8)%Z; [done|].
  rewrite (IH _ (_ :: acc)), (IH _ [ _ ]), <- app_assoc. done.
Qed.

Lemma octal_digits_last3 fuel n :
  (64 <= n)%Z -> 3 <= fuel ->
  exists pre, octal_digits fuel n []
              = pre ++ [ digit (n / 8 / 8 mod 8); digit (n / 8 mod 8); digit (n mod 8) ].
Proof.
  intros Hn Hf. destruct fuel as [|[|[|fuel]]]; try lia. cbn.
  assert ((n <? 8)%Z = false) as -> by lia.
  assert ((n / 8 <? 8)%Z = false) as ->.
  { apply Z.ltb_ge. apply Z.div_le_lower_bound; lia. }
  destruct (n / 8 / 8 <? 8)%Z.
  - by exists [].
  - rewrite octal_digits_acc. by eexists.
Qed.

Lemma length_of_chars l : String.length (of_chars l) = length l.
Proof. unfold of_chars. induction l as [|c l IH]; cbn; [done | by rewrite IH]. Qed.

Lemma chars_of_chars l : chars (of_chars l) = l.
Proof. apply list_ascii_of_string_of_list_ascii. Qed.

Lemma base8_of_mode n :
  (64 <= n)%Z ->
  parseFileMode (slice_neg 3 (toString8 n)) = Some (n mod 512)%Z.
Proof.
  intros Hn. unfold toString8.
  assert ((n <? 0)%Z = false) as -> by lia.
  destruct (octal_digits_last3 (S (Z.to_nat (Z.log2 n))) n Hn) as [pre Hpre].
  { assert (6 <= Z.log2 n)%Z by (apply Z.log2_le_pow2; lia). lia. }
  rewrite Hpre. unfold slice_neg, parseFileMode.
  rewrite length_of_chars, !chars_of_chars, length_app. cbn [length].
  replace (length pre + 3 - 3) with (length pre) by lia.
  rewrite drop_app_length.
  cbn [parse_octal_from].
  rewrite !octal_digit_digit by (apply Z.mod_pos_bound; lia).
  cbv beta iota.
  f_equal. Z.div_mod_to_equations. lia.
Qed.

(** ** [chmodX] *)

Lemma chmod_bits n : (0 <= n)%Z -> Z.land (n mod 512) S_IALLUGO = Z.land n 511.
Proof.
  intros Hn. change 512%Z with (2 ^ 9)%Z.
  rewrite <- Z.land_ones by lia. rewrite <- Z.land_assoc. done.
Qed.

Lemma lor_73_lower md : (0 <= md)%Z -> (64 <= Z.lor md 73)%Z.
Proof.
  intros Hmd.
  assert (Z.log2 (Z.lor md 73) = Z.max (Z.log2 md) 6) as Hlog.
  { rewrite Z.log2_lor by lia. done. }
  destruct (Z.le_gt_cases (Z.lor md 73) 0) as [Hle|Hgt].
  - rewrite (Z.log2_nonpos _ Hle) in Hlog. lia.
  - change 64%Z with (2 ^ 6)%Z. apply Z.log2_le_pow2; lia.
Qed.

Lemma chmodX_run filename md ls w :
  fs w !! filename = Some (File md ls) ->
  (0 <= md < 2 ^ 31)%Z ->
  fault w (StatSync filename) = None ->
  (forall m, fault w (ChmodSync filename m) = None) ->
  exists w',
    chmodX filename w = (Ok tt, w') /\
    fs w' = (if bool_decide (Z.lor md 73 = md) then fs w
             else <[filename := File (chmodX_mode md) ls]> (fs w)) /\
    exists written,
      log w' = log w ++ Sync (StatSync filename) :: written /\
      if bool_decide (Z.lor md 73 = md) then written = []
      else exists base8, written = [ Sync (ChmodSync filename base8) ].
Proof.
  intros Hf Hmd Hstat Hchmod.
  unfold chmodX, chmodX_mode, statSync, sync_call, perform, effect.
  unfold mbind, M_bind. cbn. rewrite Hstat, Hf. cbn. rewrite Hf.
  rewrite newMode_lor by done. cbn [st_mode mode].
  rewrite (bool_decide_ext (md = Z.lor md 73) (Z.lor md 73 = md)) by done.
  case_bool_decide as Hx.
  - eexists. split; [reflexivity|]. cbn. split; [done|]. by exists [].
  - unfold chmodSync, sync_call, perform, effect, mbind, M_bind. cbn.
    rewrite Hchmod, Hf.
    rewrite base8_of_mode by (apply lor_73_lower; lia).
    cbn [mode lines]. eexists. split; [reflexivity|]. cbn.
    rewrite chmod_bits by (apply Z.lor_nonneg; lia).
    split; [done|]. eexists. rewrite <- app_assoc. split; [reflexivity|]. by eexists.
Qed.

Lemma testbit_S_IFMT i :
  (0 <= i)%Z -> Z.testbit S_IFMT i = (12 <=? i)%Z && (i <? 16)%Z.
Proof.
  intros Hi. change S_IFMT with (Z.shiftl (Z.ones 4) 12).
  rewrite Z.shiftl_spec by done.
  destruct (Z.leb_spec 12 i), (Z.ltb_spec i 16); cbn.
  - apply Z.ones_spec_low; lia.
  - apply Z.ones_spec_high; lia.
  - apply Z.testbit_neg_r; lia.
  - apply Z.testbit_neg_r; lia.
Qed.

Lemma testbit_511 i : (0 <= i)%Z -> Z.testbit 511 i = (i <? 9)%Z.
Proof.
  intros Hi. change 511%Z with (Z.ones 9).
  destruct (Z.ltb_spec i 9).
  - apply Z.ones_spec_low; lia.
  - apply Z.ones_spec_high; lia.
Qed.

Lemma testbit_chmodX_mode md i :
  (0 <= i)%Z ->
  Z.testbit (chmodX_mode md) i
  = if bool_decide (Z.lor md 73 = md) then Z.testbit md i
    else (Z.testbit md i && (12 <=? i)%Z && (i <? 16)%Z)
         || ((Z.testbit md i || Z.testbit 73 i) && (i <? 9)%Z).
Proof.
  intros Hi. unfold chmodX_mode. case_bool_decide; [done|].
  rewrite Z.lor_spec, !Z.land_spec, Z.lor_spec, testbit_S_IFMT, testbit_511 by done.
  by rewrite andb_assoc.
Qed.

(** The nine permission bits: execute is added for owner, group and other,
    read and write are kept. *)
Lemma chmodX_mode_permission_bits md i :
  (0 <= i < 9)%Z ->
  Z.testbit (chmodX_mode md) i = Z.testbit md i || Z.testbit 73 i.
Proof.
  intros Hi. rewrite testbit_chmodX_mode by lia. case_bool_decide as Hx.
  - rewrite <- Hx at 1. by rewrite Z.lor_spec.
  - assert ((12 <=? i)%Z = false) as -> by lia.
    assert ((i <? 9)%Z = true) as -> by lia.
    by rewrite andb_false_r, andb_true_r.
Qed.

(** The file type is kept. *)
Lemma chmodX_mode_type_bits md i :
  (12 <= i < 16)%Z -> Z.testbit (chmodX_mode md) i = Z.testbit md i.
Proof.
  intros Hi. rewrite testbit_chmodX_mode by lia. case_bool_decide as Hx; [done|].
  assert ((12 <=? i)%Z = true) as -> by lia.
  assert ((i <? 16)%Z = true) as -> by lia.
  assert ((i <? 9)%Z = false) as -> by lia.
  by rewrite !andb_true_r, andb_false_r, orb_false_r.
Qed.

(** On a mode without set-user-ID, set-group-ID and sticky bits (octal
    7000), [chmodX] is exactly [chmod +x]. *)
Lemma chmodX_mode_plain md :
  (0 <= md < 2 ^ 16)%Z -> Z.land md 3584 = 0%Z ->
  chmodX_mode md = Z.lor md 73.
Proof.
  intros Hmd Hspecial. apply Z.bits_inj'. intros i Hi.
  rewrite testbit_chmodX_mode by done. case_bool_decide as Hx; [by rewrite Hx|].
  rewrite Z.lor_spec.
  assert (Z.testbit md i && (9 <=? i)%Z && (i <? 12)%Z = false) as Hs.
  { assert (Z.testbit (Z.land md 3584) i = false) as Hb by (by rewrite Hspecial, Z.bits_0).
    rewrite Z.land_spec in Hb.
    change 3584%Z with (Z.shiftl (Z.ones 3) 9) in Hb.
    rewrite Z.shiftl_spec in Hb by done.
    destruct (Z.leb_spec 9 i), (Z.ltb_spec i 12); rewrite ?andb_false_r; try done.
    rewrite Z.ones_spec_low in Hb by lia. by rewrite !andb_true_r in *. }
  assert ((16 <=? i)%Z = true -> Z.testbit md i = false) as Hhigh.
  { intros H16. destruct (Z.eq_dec md 0%Z) as [->|]; [apply Z.bits_0|].
    apply Z.bits_above_log2; [lia|].
    assert (Z.log2 md < 16)%Z by (apply Z.log2_lt_pow2; lia). lia. }
  assert ((7 <=? i)%Z = true -> Z.testbit 73 i = false) as H73.
  { intros H7. apply Z.bits_above_log2; [lia|]. change (Z.log2 73) with 6%Z. lia. }
  destruct (Z.leb_spec 12 i), (Z.ltb_spec i 16), (Z.ltb_spec i 9),
    (Z.leb_spec 9 i), (Z.ltb_spec i 12), (Z.leb_spec 16 i), (Z.leb_spec 7 i);
    try lia;
    rewrite ?Hhigh, ?H73 by done;
    rewrite ?andb_true_r, ?andb_false_r, ?orb_false_r in *; done.
Qed.

Example chmodX_mode_644 : chmodX_mode 33188 = 33261%Z.
Proof. reflexivity. Qed.

Example chmodX_mode_755 : chmodX_mode 33261 = 33261%Z.
Proof. reflexivity. Qed.

Example chmodX_mode_setuid :
  chmodX_mode 35236 = 33261%Z /\ Z.lor 35236 73 = 35309%Z.
Proof. split; reflexivity. Qed.

(** ** The utilities *)

Lemma awaited_promise_rejects c w e :
  (effect (fault w) (exec w) (umask w) (fs w) c).2 = inl e ->
  (awaited false c w).1 = Throw e.
Proof. unfold awaited. destruct (effect _ _ _ _ _) as [m [e'|v]]; cbn; congruence. Qed.

Lemma awaited_callback_fulfils c w e :
  (effect (fault w) (exec w) (umask w) (fs w) c).2 = inl e ->
  unreported w c = false ->
  (awaited true c w).1
  = Ok (VLineReplace {| error := Some e; replacedText := None |}).
Proof.
  unfold awaited. intros He ->.
  destruct (effect _ _ _ _ _) as [m [e'|v]]; cbn in *; congruence.
Qed.

Lemma awaited_callback_pending c w e :
  (effect (fault w) (exec w) (umask w) (fs w) c).2 = inl e ->
  unreported w c = true ->
  (awaited true c w).1 = Hang.
Proof.
  unfold awaited. intros He ->.
  destruct (effect _ _ _ _ _) as [m [e'|v]]; cbn in *; congruence.
Qed.

Lemma effect_LineReplace faults status mask m name line text nl :
  exists r, match (effect faults status mask m (LineReplace name line text nl)).2 with
            | inr v => v = VLineReplace r /\ error r = None
            | inl e => True
            end.
Proof.
  unfold effect. destruct (faults _); [by exists {| error := None; replacedText := None |}|].
  destruct (m !! name); cbn; [by eexists | by exists {| error := None; replacedText := None |}].
Qed.

(** C9, amended.  [replaceFirstLine] hands [resolve] itself to
    [lineReplace] as the callback.  The promise it returns is never
    rejected.  When the package calls back, the promise is fulfilled with
    the object the callback received: awaiting it returns that object, and
    an error of the rewrite is a field of it.  When the package does not
    call back, the promise stays pending, and awaiting it never ends. *)
Theorem replaceFirstLine_never_rejects (filename line : string) (w : world) :
  idle w ->
  let c := LineReplace filename 1 line false in
  exists p w1,
    replaceFirstLine filename line w = (Ok p, w1) /\
    (forall e, promises (drain w1) !! p <> Some (Rejected e)) /\
    (calls_back w c = true ->
     exists r,
       promises (drain w1) !! p = Some (Fulfilled (VLineReplace r)) /\
       await p w1 = (Ok (VLineReplace r), drain w1) /\
       forall e,
         (effect (fault w) (exec w) (umask w) (fs w) c).2 = inl e ->
         error r = Some e) /\
    (calls_back w c = false ->
     promises (drain w1) !! p = Some Pending /\
     await p w1 = (Hang, drain w1)).
Proof.
  intros Hq c. unfold calls_back. subst c.
  destruct w as [f m e fa un ce um ps q l]. unfold idle in Hq; cbn in Hq. subst q.
  destruct (effect_LineReplace fa e um f filename 1 line false) as [r0 Hr0].
  eexists _, _. split; [reflexivity|].
  unfold await, drain, complete, perform. cbn.
  destruct (effect fa e um f _) as [m' [err|v]]; cbn in *.
  - destruct (un _); cbn.
    + rewrite lookup_fresh. split; [done|]. split; [done|]. done.
    + unfold settle_cell; cbn. rewrite lookup_fresh; cbn.
      rewrite insert_fresh, lookup_fresh.
      split; [done|]. split; [|done]. intros _.
      eexists. split; [reflexivity|]. split; [reflexivity|]. by intros ? [= <-].
  - destruct Hr0 as [-> Hr0]. unfold settle_cell; cbn.
    rewrite lookup_fresh; cbn. rewrite insert_fresh, lookup_fresh.
    split; [done|]. split; [|done]. intros _.
    eexists. split; [reflexivity|]. split; [reflexivity|]. done.
Qed.

(** C9 as it stands fails where the temporary file of the rewrite cannot be
    written: the package does not call back, the promise is left pending,
    and awaiting it never ends. *)
Lemma replaceFirstLine_left_pending :
  let '(r, w1) :=
    replaceFirstLine "./build/index.js" ("#!/usr/bin/env node" +:+ LF)
                     demo_world_rewrite_lost in
  r = Ok 0 /\
  promises (drain w1) !! 0 = Some Pending /\
  (await 0 w1).1 = Hang /\
  (cliLifecycle_onEnd demo_dirname demo_world_rewrite_lost).1 = Hang.
Proof. vm_compute. repeat split; reflexivity. Qed.

Lemma effect_LineReplace_first faults status mask m filename text first rest md :
  m !! filename = Some (File md (first :: rest)) ->
  faults (LineReplace filename 1 (text +:+ LF) false) = None ->
  plain text = true -> forallb plain rest = true ->
  effect faults status mask m (LineReplace filename 1 (text +:+ LF) false)
  = (delete (temp_file filename)
       (<[filename := File (match m !! temp_file filename with
                            | Some t => mode t
                            | None => created_mode mask 438
                            end) (text :: rest)]> m),
     inr (VLineReplace {| error := None; replacedText := Some first |})).
Proof.
  intros Hf Hfault Ht Hrest. unfold effect. rewrite Hfault, Hf.
  cbn [lines replaced_line lookup]. by rewrite replace_line_first.
Qed.

(** C7, amended.  On a file that has a first line, and for a text that is
    one plain line ended by a line feed, the replacement leaves a file whose
    first line is the text as it is, nothing appended, and whose other lines
    are the old ones in their order.  The file is a new one, made under the
    mask of the process; the other files are untouched. *)
Theorem replaceFirstLine_first_line (filename text first : string)
    (rest : list string) (md : Z) (w : world) :
  idle w ->
  fs w !! filename = Some (File md (first :: rest)) ->
  fault w (LineReplace filename 1 (text +:+ LF) false) = None ->
  plain text = true ->
  forallb plain rest = true ->
  exists v w' md',
    (p ← replaceFirstLine filename (text +:+ LF); await p) w = (Ok v, w') /\
    fs w' !! filename = Some (File md' (text :: rest)) /\
    (fs w !! temp_file filename = None -> md' = created_mode (umask w) 438) /\
    forall other, other <> filename -> other <> temp_file filename ->
                  fs w' !! other = fs w !! other.
Proof.
  intros Hq Hf Hfault Ht Hrest. rewrite await_replaceFirstLine by done.
  unfold awaited.
  rewrite (effect_LineReplace_first _ _ _ _ _ _ _ _ _ Hf Hfault Ht Hrest).
  cbn [settled]. eexists _, _, _. split; [reflexivity|]. cbn [fs]. split; [|split].
  - rewrite lookup_delete_ne by apply not_eq_sym, temp_file_ne.
    by rewrite lookup_insert_eq.
  - by intros ->.
  - intros other Hne Htmp.
    rewrite lookup_delete_ne by done. by rewrite lookup_insert_ne.
Qed.

(** C7 as it stands fails on the example of the specification: with the
    text ["#!/usr/bin/env node"], which does not end its line, and the lines
    ["console.log(1)"] and ["x=2"], the text and the second line end up on
    one line.  It fails on an empty file too, which stays empty. *)
Lemma replaceFirstLine_joins_lines :
  let '(_, w') :=
    (p ← replaceFirstLine "./build/index.js" "#!/usr/bin/env node"; await p)
      demo_world in
  let '(_, w0) :=
    (p ← replaceFirstLine "./build/index.js" "#!/usr/bin/env node"; await p)
      demo_world_empty_output in
  lines <$> fs demo_world !! "./build/index.js" = Some [ "console.log(1)"; "x=2" ] /\
  lines <$> fs w' !! "./build/index.js" = Some [ "#!/usr/bin/env nodex=2" ] /\
  lines <$> fs w' !! "./build/index.js" <> Some [ "#!/usr/bin/env node"; "x=2" ] /\
  lines <$> fs demo_world_empty_output !! "./build/index.js" = Some [] /\
  lines <$> fs w0 !! "./build/index.js" = Some [].
Proof. vm_compute. repeat split; (reflexivity || discriminate). Qed.

(** C6.  On a set-user-ID file of mode 104644 (octal) the step computes the
    new mode 104755, and hands [chmodSync] its last three digits: the file
    ends at 100755, and the set-user-ID bit (bit 11) is gone.  On the same
    file with the execute bits set, mode 104755, nothing is written and the
    bit stays. *)
Theorem chmodX_drops_setuid :
  let '(r, w') := chmodX "./build/index.js" demo_world_setuid in
  let '(rx, wx) := chmodX "./build/index.js" demo_world_setuid_x in
  r = Ok tt /\
  log w' = [ Sync (StatSync "./build/index.js");
             Sync (ChmodSync "./build/index.js" "755") ] /\
  mode <$> fs w' !! "./build/index.js" = Some 33261%Z /\
  Z.lor 35236 73 = 35309%Z /\
  Z.testbit 35236 11 = true /\ Z.testbit 33261 11 = false /\
  rx = Ok tt /\
  log wx = [ Sync (StatSync "./build/index.js") ] /\
  mode <$> fs wx !! "./build/index.js" = Some 35309%Z.
Proof. vm_compute. repeat split; reflexivity. Qed.

(** ** Counting what is observed *)

Lemma times_app p evs1 evs2 : times p (evs1 ++ evs2) = times p evs1 + times p evs2.
Proof. unfold times. by rewrite phases_app, filter_app, length_app. Qed.

Lemma times_le_of_prefix p evs l :
  phases evs `prefix_of` l -> times p evs <= length (filter (fun q => q = p) l).
Proof.
  intros [k ->]. unfold times. rewrite filter_app, length_app. lia.
Qed.

Lemma times_ge_of_prefix p evs l :
  l `prefix_of` phases evs -> length (filter (fun q => q = p) l) <= times p evs.
Proof.
  intros [k Hk]. unfold times. rewrite Hk, filter_app, length_app. lia.
Qed.

Lemma emit_idle e w : idle w -> idle (add_event e w).
Proof. done. Qed.

Lemma prefix_cases {A} (l l2 : list A) :
  l `prefix_of` l2 -> exists n, n <= length l2 /\ l = take n l2.
Proof.
  intros [k ->]. exists (length l). split.
  - rewrite length_app. lia.
  - by rewrite take_app_length.
Qed.

Lemma effect_Run faults status mask m command :
  (effect faults status mask m (Run command)).1 = m /\
  (status command <> Some 0%Z ->
   exists e, (effect faults status mask m (Run command)).2 = inl e).
Proof.
  unfold effect. destruct (faults _); [by eauto|].
  destruct (status command) as [[]|]; cbn; split; eauto; done.
Qed.

(** [onStart] begins the pre-build command and waits for its end; it
    returns or throws with the command. *)
Lemma onStart_run w :
  idle w ->
  exists r w' ok,
    cliLifecycle_onStart w = (r, w') /\ idle w' /\
    log w' = log w ++ [ Begin prebuild; End prebuild ok ] /\
    (r = Ok tt \/ exists e, r = Throw e) /\
    (exec w "node -r esbuild-register ./helpers/copy-prisma-client.ts" <> Some 0%Z ->
     ok = false /\ exists e, r = Throw e).
Proof.
  intros Hw. unfold cliLifecycle_onStart, run.
  rewrite <- bind_assoc. unfold mbind at 1, M_bind.
  rewrite await_promise_returning by done. unfold awaited.
  destruct (effect_Run (fault w) (exec w) (umask w) (fs w)
              "node -r esbuild-register ./helpers/copy-prisma-client.ts")
    as [_ Hfail].
  fold prebuild in *.
  destruct (effect _ _ _ _ prebuild) as [m [e|v]]; cbn.
  - eexists _, _, false. split; [reflexivity|]. cbn.
    split; [done|]. split; [done|]. split; [by eauto|]. by eauto.
  - eexists _, _, true. split; [reflexivity|]. cbn.
    split; [done|]. split; [done|]. split; [by left|].
    intros Hne. by destruct (Hfail Hne) as [e He].
Qed.

(** ** The script *)

Section Properties.

Variable __dirname : string.
Variable cwd : string.

Local Abbreviation onStart := cliLifecycle_onStart.
Local Abbreviation onEnd := (cliLifecycle_onEnd __dirname).
Local Abbreviation lifecycle := (cliLifecyclePlugin __dirname).
Local Abbreviation externalPkg := (externalPackageJson __dirname cwd).
Local Abbreviation hooked := (with_hooks __dirname).

(** C1.  For an import whose specifier matches the manifest-file pattern,
    the override resolves the absolute path from the resolve directory and
    the specifier.  If it is the manifest of the package, the import is
    external and redirected to the manifest relative to the directory of the
    output file; otherwise no decision is taken, whatever the specifier. *)
Theorem externalPackageJson_override (b : esbuild.PluginBuild)
    (io : esbuild.InitialOptions) (o : string) :
  esbuild.initialOptions b = Some io ->
  esbuild.outfile io = Some o ->
  esbuild.onResolveCallbacks b = [] ->
  let pkgJson := path.resolve cwd [ __dirname; ".."; "package.json" ] in
  let outdir := path.dirname (path.resolve cwd [ o ]) in
  exists b',
    esbuild.setup externalPkg b = inr b' /\
    forall args,
      package_json_filter (esbuild.path args) = true ->
      let resolved :=
        path.resolve cwd [ esbuild.resolveDir args; esbuild.path args ] in
      (resolved = pkgJson ->
       esbuild.resolve_import (esbuild.onResolveCallbacks b') args
       = Some {| esbuild.result_path := path.relative cwd outdir pkgJson;
                 esbuild.external := true |}) /\
      (resolved <> pkgJson ->
       esbuild.resolve_import (esbuild.onResolveCallbacks b') args = None).
Proof.
  intros Hio Ho Hcbs pkgJson outdir. unfold externalPackageJson.
  cbn [esbuild.setup]. rewrite Hio. cbn [mbind option_bind]. rewrite Ho.
  eexists. split; [reflexivity|].
  intros args Hfilter.
  cbn [esbuild.onResolveCallbacks esbuild.onResolve]. rewrite Hcbs.
  cbn [app esbuild.resolve_import esbuild.filter]. rewrite Hfilter.
  fold pkgJson outdir.
  split; intros Hres.
  - by rewrite bool_decide_eq_true_2.
  - by rewrite bool_decide_eq_false_2.
Qed.

(** X7.  An import that does not match the pattern is not shown to the
    override. *)
Lemma externalPackageJson_filtered (b b' : esbuild.PluginBuild) args :
  esbuild.onResolveCallbacks b = [] ->
  esbuild.setup externalPkg b = inr b' ->
  package_json_filter (esbuild.path args) = false ->
  esbuild.resolve_import (esbuild.onResolveCallbacks b') args = None.
Proof.
  intros Hcbs Hsetup Hfilter. unfold externalPackageJson in Hsetup.
  cbn [esbuild.setup] in Hsetup.
  destruct (esbuild.initialOptions b ≫= esbuild.outfile); [|done].
  injection Hsetup as <-. cbn [esbuild.onResolveCallbacks esbuild.onResolve].
  rewrite Hcbs. cbn [app esbuild.resolve_import esbuild.filter].
  by rewrite Hfilter.
Qed.

Lemma lifecycle_setup_not_esm b :
  esbuild.initialOptions b ≫= esbuild.format <> Some "esm" ->
  esbuild.setup lifecycle b = inr (hooked b).
Proof.
  intros H. unfold cliLifecyclePlugin, with_hooks. cbn [esbuild.setup].
  by rewrite bool_decide_eq_false_2.
Qed.

Lemma lifecycle_setup_esm b :
  esbuild.initialOptions b ≫= esbuild.format = Some "esm" ->
  esbuild.setup lifecycle b = inr b.
Proof.
  intros H. unfold cliLifecyclePlugin. cbn [esbuild.setup].
  by rewrite bool_decide_eq_true_2.
Qed.

Lemma with_hooks_differs b : hooked b <> b.
Proof.
  unfold with_hooks.
  intros H. apply (f_equal (fun x => length (esbuild.onStartCallbacks x))) in H.
  cbn in H. rewrite length_app in H. cbn in H. lia.
Qed.

(** C10.  Without an [initialOptions] object, or with one that has no
    [format], [setup] registers [onStart] and [onEnd] just as it does for a
    target of any format other than [esm]; registration is skipped only
    when the format is the string [esm]. *)
Theorem lifecycle_registers_without_format (b : esbuild.PluginBuild) :
  esbuild.initialOptions b = None \/
  (exists io, esbuild.initialOptions b = Some io /\ esbuild.format io = None) ->
  esbuild.setup lifecycle b = inr (hooked b) /\
  esbuild.onStartCallbacks (hooked b) = esbuild.onStartCallbacks b ++ [ onStart ] /\
  esbuild.onEndCallbacks (hooked b) = esbuild.onEndCallbacks b ++ [ onEnd ] /\
  (forall b' f, esbuild.initialOptions b' ≫= esbuild.format = Some f ->
                f <> "esm" ->
                esbuild.setup lifecycle b' = inr (hooked b')) /\
  (forall b', esbuild.setup lifecycle b' = inr b' <->
              esbuild.initialOptions b' ≫= esbuild.format = Some "esm").
Proof.
  intros Hb. split; [|split; [done|split; [done|split]]].
  - apply lifecycle_setup_not_esm.
    destruct Hb as [-> | (io & -> & Hf)]; cbn; [done | by rewrite Hf].
  - intros b' f Hf Hne. apply lifecycle_setup_not_esm. rewrite Hf. congruence.
  - intros b'. split.
    + intros Hs.
      destruct (decide (esbuild.initialOptions b' ≫= esbuild.format = Some "esm"))
        as [|Hne]; [done|].
      rewrite (lifecycle_setup_not_esm _ Hne) in Hs. injection Hs as Hs.
      by apply with_hooks_differs in Hs.
    + apply lifecycle_setup_esm.
Qed.

(** C8.  The batch handed to the build runner: three descriptors, [cli],
    [preinstall] and [migrate], with the output paths [build/index],
    [preinstall/index] and [build/migrate], the last one alone with forced
    externals, [@prisma/engines]; no two output paths are the same. *)
Theorem batch_descriptors :
  batch __dirname cwd
  = [ cliBuildConfig __dirname cwd; preinstallBuildConfig;
      migrateBuildConfig __dirname cwd ] /\
  length (batch __dirname cwd) = 3 /\
  name <$> batch __dirname cwd = [ "cli"; "preinstall"; "migrate" ] /\
  outfile <$> batch __dirname cwd
  = [ "build/index"; "preinstall/index"; "build/migrate" ] /\
  external <$> batch __dirname cwd = [ None; None; Some [ "@prisma/engines" ] ] /\
  NoDup (outfile <$> batch __dirname cwd).
Proof.
  repeat split; try reflexivity.
  compute_done.
Qed.

(** The compiler emits the output of a target, or reports an error in its
    sources and emits nothing. *)
Lemma transform_cases (o : BuildOptions) (w : world) :
  (exists e, transform o w = (Throw e, w)) \/
  transform o w = (Ok tt, add_event (Emit (outfile o)) w).
Proof. unfold transform. destruct (compile_error w (name o)); eauto. Qed.

(** The batch of a target in a format other than [esm] and the same target
    in [esm] is the program that runs the hooks once, around the first
    emission. *)
Lemma build_two_formats (f : option string) (w : world) :
  f <> Some "esm" ->
  build [ with_format f (cliBuildConfig __dirname cwd);
          with_format (Some "esm") (cliBuildConfig __dirname cwd) ] w
  = (onStart ;; transform (with_format f (cliBuildConfig __dirname cwd)) ;;
     onEnd ;; transform (with_format (Some "esm") (cliBuildConfig __dirname cwd))) w.
Proof.
  intros Hf. unfold build, compile.
  cbn [plugins with_format cliBuildConfig default from_option id setup_all
       initial_options outfile format].
  rewrite (lifecycle_setup_esm
             (esbuild.fresh (Some (initial_options (with_format (Some "esm") _)))))
    by done.
  rewrite lifecycle_setup_not_esm by done.
  unfold externalPackageJson, with_hooks.
  cbn [esbuild.setup esbuild.initialOptions esbuild.fresh esbuild.onEnd
       esbuild.onStart esbuild.onResolve esbuild.onStartCallbacks
       esbuild.onEndCallbacks esbuild.outfile initial_options mbind option_bind
       outfile app run_callbacks].
  unfold mbind, M_bind, mret, M_ret.
  destruct (cliLifecycle_onStart w) as [[[]|e|] w1]; [|done..].
  destruct (transform _ w1) as [[[]|e|] w1']; [|done..].
  destruct (cliLifecycle_onEnd __dirname _) as [[[]|e|] w2]; [|done..].
  by destruct (transform _ w2) as [[[]|e|] w2'].
Qed.

(** What the two formats let observe: the pre-build command, the output of
    the first format when its sources are sound, [n] phases of the staging,
    and the output of the second format at most. *)
Lemma times_two_formats (ok : bool) (o : string) (evs2 : list event) (n : nat)
    (first : bool) (tail : list event) :
  n <= 12 ->
  phases evs2 = take n staging_order ->
  tail = [] \/ tail = [ Emit o ] ->
  let evs := [ Begin prebuild; End prebuild ok ]
               ++ (if first then [ Emit o ] ++ evs2 ++ tail else []) in
  times (Starts PreBuild) evs = 1 /\
  Forall (fun p => times p evs <= 1) staging_order /\
  (first = true -> 11 <= n ->
   Forall (fun p => times p evs = 1) staging_required).
Proof.
  intros Hn Hph Htail evs. subst evs. unfold times.
  destruct first; [|split; [compute_done|]; split; [compute_done | done]].
  rewrite !phases_app, Hph.
  destruct Htail as [-> | ->];
    do 13 (destruct n as [|n];
           [split; [compute_done|]; split; [compute_done|];
            intros _ Hge; first [lia | compute_done]|]);
    lia.
Qed.

(** C2.  On a target in [esm] format [setup] registers nothing: the build
    object is returned as it was.  So a batch of one entry point in a
    format other than [esm] and in [esm] starts the pre-build command once,
    lets no staging step be observed twice, and lets each of them be
    observed exactly once when it succeeds. *)
Theorem lifecycle_hooks_once (f : option string) (w : world) :
  f <> Some "esm" ->
  idle w ->
  (forall b, esbuild.initialOptions b ≫= esbuild.format = Some "esm" ->
             esbuild.setup lifecycle b = inr b) /\
  exists r w' evs,
    build [ with_format f (cliBuildConfig __dirname cwd);
            with_format (Some "esm") (cliBuildConfig __dirname cwd) ] w
    = (r, w') /\
    log w' = log w ++ evs /\
    times (Starts PreBuild) evs = 1 /\
    Forall (fun p => times p evs <= 1) staging_order /\
    (r = Ok tt -> Forall (fun p => times p evs = 1) staging_required).
Proof.
  intros Hf Hw. split; [apply lifecycle_setup_esm|].
  rewrite build_two_formats by done.
  destruct (onStart_run w Hw) as (r1 & w1 & ok & E1 & Hw1 & Hlog1 & Hr1 & _).
  unfold mbind at 1, M_bind. rewrite E1.
  destruct Hr1 as [-> | [e ->]].
  2:{ eexists _, _, _. split; [reflexivity|]. split; [done|].
      destruct (times_two_formats ok "build/index" [] 0 false [])
        as (H1 & H2 & _); [lia | done | by left |].
      split; [exact H1|]. split; [exact H2 | done]. }
  unfold mbind at 1, M_bind.
  destruct (transform_cases (with_format f (cliBuildConfig __dirname cwd)) w1)
    as [[e ->] | ->].
  { eexists _, _, _. split; [reflexivity|]. split; [done|].
    destruct (times_two_formats ok "build/index" [] 0 false [])
      as (H1 & H2 & _); [lia | done | by left |].
    split; [exact H1|]. split; [exact H2 | done]. }
  destruct (runs_onEnd __dirname (add_event (Emit "build/index") w1))
    as (r2 & w2 & evs2 & E2 & Hw2 & Hr2 & Hlog2 & Hhi & Hlo); [done|].
  cbn [outfile with_format cliBuildConfig] in *.
  unfold mbind at 1, M_bind. rewrite E2.
  destruct (prefix_cases _ _ Hhi) as (n & Hn & Hph). cbn in Hn.
  assert (forall tail first,
             log w ++ [ Begin prebuild; End prebuild ok ]
               ++ (if first : bool then [ Emit "build/index" ] ++ evs2 ++ tail else [])
             = (log (add_event (Emit "build/index") w1) ++ evs2) ++ tail
             \/ first = false) as Hlogs.
  { intros tail [|]; [left | by right]. cbn [add_event log]. rewrite Hlog1.
    by rewrite <- !app_assoc. }
  destruct r2 as [[]|e|].
  - assert (11 <= n) as Hn11.
    { destruct (Hlo tt eq_refl) as [k Hk]. rewrite Hph in Hk.
      apply (f_equal length) in Hk. rewrite length_app, length_take in Hk.
      cbn in Hk. lia. }
    destruct (transform_cases
                (with_format (Some "esm") (cliBuildConfig __dirname cwd)) w2)
      as [[e ->] | ->].
    + destruct (times_two_formats ok "build/index" evs2 n true [])
        as (H1 & H2 & H3); [lia | done | by left |].
      eexists _, _, _. split; [reflexivity|]. split.
      { destruct (Hlogs [] true) as [H|]; [|done].
        rewrite Hlog2, <- (app_nil_r (_ ++ evs2)), <- H. reflexivity. }
      split; [exact H1|]. split; [exact H2 | done].
    + destruct (times_two_formats ok "build/index" evs2 n true
                  [ Emit "build/index" ])
        as (H1 & H2 & H3); [lia | done | by right |].
      eexists _, _, _. split; [reflexivity|]. split.
      { destruct (Hlogs [ Emit "build/index" ] true) as [H|]; [|done].
        cbn [add_event log outfile with_format cliBuildConfig].
        rewrite Hlog2, <- H. reflexivity. }
      split; [exact H1|]. split; [exact H2|]. intros _. by apply H3.
  - destruct (times_two_formats ok "build/index" evs2 n true [])
      as (H1 & H2 & H3); [lia | done | by left |].
    eexists _, _, _. split; [reflexivity|]. split.
    { destruct (Hlogs [] true) as [H|]; [|done].
      rewrite Hlog2, <- (app_nil_r (_ ++ evs2)), <- H. reflexivity. }
    split; [exact H1|]. split; [exact H2 | done].
  - destruct (times_two_formats ok "build/index" evs2 n true [])
      as (H1 & H2 & H3); [lia | done | by left |].
    eexists _, _, _. split; [reflexivity|]. split.
    { destruct (Hlogs [] true) as [H|]; [|done].
      rewrite Hlog2, <- (app_nil_r (_ ++ evs2)), <- H. reflexivity. }
    split; [exact H1|]. split; [exact H2 | done].
Qed.

(** C5.  When the pre-build command of [onStart] does not end with status
    zero (it exits non-zero or cannot be run), the hook throws; the build of
    the target throws the same error before anything is emitted, and the
    runner throws it without going on to the next target: nothing is
    observed but the command. *)
Theorem onStart_failure_is_fatal (f : option string) (rest : list BuildOptions)
    (w : world) :
  f <> Some "esm" ->
  idle w ->
  exec w "node -r esbuild-register ./helpers/copy-prisma-client.ts" <> Some 0%Z ->
  exists e w',
    onStart w = (Throw e, w') /\
    compile (with_format f (cliBuildConfig __dirname cwd)) w = (Throw e, w') /\
    build (with_format f (cliBuildConfig __dirname cwd) :: rest) w = (Throw e, w') /\
    log w' = log w ++ [ Begin prebuild; End prebuild false ].
Proof.
  intros Hf Hw Hexit.
  destruct (onStart_run w Hw) as (r & w' & ok & E & _ & Hlog & _ & Hfail).
  destruct (Hfail Hexit) as [-> [e ->]].
  exists e, w'. split; [done|].
  assert (compile (with_format f (cliBuildConfig __dirname cwd)) w = (Throw e, w'))
    as Hcompile.
  { unfold compile.
    cbn [plugins with_format cliBuildConfig default from_option id setup_all
         initial_options outfile format].
    rewrite lifecycle_setup_not_esm by done.
    unfold externalPackageJson, with_hooks. cbn.
    unfold mbind, M_bind. by rewrite E. }
  split; [done|]. split; [|done].
  cbn [build]. unfold mbind, M_bind. by rewrite Hcompile.
Qed.

End Properties.

(** ** The script in the demo workspace *)

(** C4.  In the workspace where the rewrite of the first line fails and
    everything else goes through, the hook does not stop at the failure:
    the rewrite ends unsuccessfully (event 9), the file is left as it was,
    and yet the permission step runs (events 10 and 11) and the hook
    returns normally. *)
Theorem onEnd_swallows_rewrite_failure :
  let '(r, w') := cliLifecycle_onEnd demo_dirname demo_world_rewrite_fails in
  r = Ok tt /\
  phases (log w') = staging_order /\
  log w' !! 9
  = Some (End (LineReplace "./build/index.js" 1 ("#!/usr/bin/env node" +:+ LF) false)
              false) /\
  log w' !! 10 = Some (Sync (StatSync "./build/index.js")) /\
  log w' !! 11 = Some (Sync (ChmodSync "./build/index.js" "755")) /\
  fs w' !! "./build/index.js" = Some (File 33261 [ "console.log(1)"; "x=2" ]).
Proof. vm_compute. repeat split; reflexivity. Qed.

(** The copies do stop the hook: without the xdg-open helper, the third
    step fails, the hook throws, and nothing later is observed. *)
Example onEnd_copy_failure_aborts :
  let '(r, w') :=
    cliLifecycle_onEnd demo_dirname
      (set_fs (delete "/ws/node_modules/open/xdg-open" demo_fs) demo_world) in
  r = Throw "ENOENT: /ws/node_modules/open/xdg-open" /\
  phases (log w') = take 6 staging_order.
Proof. vm_compute. repeat split; reflexivity. Qed.

(** In the successful workspace: the whole of [staging_order], a directive
    on the first line, an executable file. *)
Example onEnd_demo :
  let '(r, w') := cliLifecycle_onEnd demo_dirname demo_world in
  r = Ok tt /\
  phases (log w') = staging_order /\
  fs w' !! "./build/index.js"
  = Some (File 33261 [ "#!/usr/bin/env node"; "x=2" ]) /\
  fs w' !! "./build/index.js.tmp" = None /\
  fs w' !! "./build/public/assets/app.js" = Some (File 33188 [ "app" ]).
Proof. vm_compute. repeat split; reflexivity. Qed.

(** The whole batch of the script in the successful workspace. *)
Example build_demo :
  let '(r, w') := build (batch demo_dirname demo_cwd) demo_world in
  r = Ok tt /\
  phases (log w')
  = [ Starts PreBuild; Finishes PreBuild; Other ] ++ staging_order
      ++ [ Other; Other ].
Proof. vm_compute. repeat split; reflexivity. Qed.

(** ** The theorems at work *)

Lemma externalPackageJson_override_witness :
  let b := esbuild.fresh (Some {| esbuild.format := None;
                                  esbuild.outfile := Some "build/index" |}) in
  exists b',
    esbuild.setup (externalPackageJson "/proj/pkg/helpers" "/proj/pkg") b = inr b' /\
    esbuild.resolve_import (esbuild.onResolveCallbacks b')
      {| esbuild.path := "../package.json"; esbuild.resolveDir := "/proj/pkg/src" |}
    = Some {| esbuild.result_path := "../package.json"; esbuild.external := true |} /\
    esbuild.resolve_import (esbuild.onResolveCallbacks b')
      {| esbuild.path := "other-pkg/package.json";
         esbuild.resolveDir := "/proj/node_modules" |}
    = None.
Proof.
  intros b.
  destruct (externalPackageJson_override "/proj/pkg/helpers" "/proj/pkg" b
              {| esbuild.format := None; esbuild.outfile := Some "build/index" |}
              "build/index" eq_refl eq_refl eq_refl)
    as (b' & Hsetup & Hargs).
  exists b'. split; [exact Hsetup|]. split.
  - apply (Hargs {| esbuild.path := "../package.json";
                    esbuild.resolveDir := "/proj/pkg/src" |}); reflexivity.
  - apply (Hargs {| esbuild.path := "other-pkg/package.json";
                    esbuild.resolveDir := "/proj/node_modules" |});
      [reflexivity | vm_compute; discriminate].
Defined.

Lemma lifecycle_hooks_once_witness :
  Some "cjs" <> Some "esm" /\ idle demo_world /\
  exists r w' evs,
    build [ with_format (Some "cjs") (cliBuildConfig demo_dirname demo_cwd);
            with_format (Some "esm") (cliBuildConfig demo_dirname demo_cwd) ]
          demo_world
    = (r, w') /\
    log w' = log demo_world ++ evs /\
    times (Starts PreBuild) evs = 1 /\
    Forall (fun p => times p evs <= 1) staging_order /\
    (r = Ok tt -> Forall (fun p => times p evs = 1) staging_required).
Proof.
  split; [discriminate|]. split; [reflexivity|].
  apply (lifecycle_hooks_once demo_dirname demo_cwd (Some "cjs") demo_world);
    [discriminate | reflexivity].
Defined.

Lemma onStart_failure_is_fatal_witness :
  idle demo_world_prebuild_fails /\
  exec demo_world_prebuild_fails
       "node -r esbuild-register ./helpers/copy-prisma-client.ts" <> Some 0%Z /\
  exists e w',
    cliLifecycle_onStart demo_world_prebuild_fails = (Throw e, w') /\
    compile (with_format None (cliBuildConfig demo_dirname demo_cwd))
            demo_world_prebuild_fails = (Throw e, w') /\
    build (with_format None (cliBuildConfig demo_dirname demo_cwd)
             :: [ preinstallBuildConfig; migrateBuildConfig demo_dirname demo_cwd ])
          demo_world_prebuild_fails = (Throw e, w') /\
    log w' = log demo_world_prebuild_fails ++ [ Begin prebuild; End prebuild false ].
Proof.
  split; [reflexivity|]. split; [discriminate|].
  apply (onStart_failure_is_fatal demo_dirname demo_cwd None
           [ preinstallBuildConfig; migrateBuildConfig demo_dirname demo_cwd ]
           demo_world_prebuild_fails);
    [discriminate | reflexivity | discriminate].
Defined.

Lemma lifecycle_registers_without_format_witness :
  esbuild.initialOptions (esbuild.fresh None) = None /\
  esbuild.setup (cliLifecyclePlugin demo_dirname) (esbuild.fresh None)
  = inr (with_hooks demo_dirname (esbuild.fresh None)).
Proof.
  split; [reflexivity|].
  apply (lifecycle_registers_without_format demo_dirname (esbuild.fresh None)).
  left. reflexivity.
Defined.

(** * Further properties *)

(** ** More on [chmodX] *)

Lemma land_const_small a c :
  (0 <= c < 2 ^ 31)%Z -> (0 <= Z.land a c < 2 ^ 31)%Z.
Proof.
  intros Hc. split; [apply Z.land_nonneg; lia|].
  assert (0 <= Z.land a c)%Z as Hnn by (apply Z.land_nonneg; lia).
  destruct (Z.eq_dec (Z.land a c) 0%Z) as [->|Hne]; [lia|].
  destruct (Z.eq_dec c 0%Z) as [->|Hc0]; [by rewrite Z.land_0_r in Hne|].
  apply Z.log2_lt_pow2; [lia|].
  assert (Z.log2 c < 31)%Z by (apply Z.log2_lt_pow2; lia).
  assert (forall i, (31 <= i)%Z -> Z.testbit (Z.land a c) i = false) as Hhigh.
  { intros i Hi. rewrite Z.land_spec, (Z.bits_above_log2 c i) by lia.
    apply andb_false_r. }
  destruct (Z.lt_ge_cases (Z.log2 (Z.land a c)) 31) as [|Hge]; [done|].
  specialize (Hhigh _ Hge). rewrite Z.bit_log2 in Hhigh by lia. done.
Qed.

Lemma chmodX_mode_small md :
  (0 <= md < 2 ^ 31)%Z -> (0 <= chmodX_mode md < 2 ^ 31)%Z.
Proof.
  intros Hmd. unfold chmodX_mode. case_bool_decide; [done|].
  apply lor_small; apply land_const_small; done.
Qed.

(** Once [chmodX] has run, the three execute bits are set. *)
Lemma chmodX_mode_fixed md : Z.lor (chmodX_mode md) 73 = chmodX_mode md.
Proof.
  apply Z.bits_inj'. intros i Hi. rewrite Z.lor_spec.
  rewrite testbit_chmodX_mode by done. case_bool_decide as Hx.
  - rewrite <- Hx at 2. by rewrite Z.lor_spec.
  - destruct (Z.ltb_spec i 9).
    + assert ((12 <=? i)%Z = false) as -> by lia.
      rewrite andb_false_r, andb_true_r. cbn.
      by destruct (Z.testbit md i), (Z.testbit 73 i).
    + assert (Z.testbit 73 i = false) as ->.
      { apply Z.bits_above_log2; [lia|]. change (Z.log2 73) with 6%Z. lia. }
      by rewrite orb_false_r.
Qed.

(** Whatever happens, [chmodX] changes nothing but the mode of its file:
    the other files, the text of the file, the module table, the promises
    and the calls in flight are as before. *)
Lemma chmodX_frame (filename : string) (w : world) :
  let w' := (chmodX filename w).2 in
  (forall other, other <> filename -> fs w' !! other = fs w !! other) /\
  lines <$> fs w' !! filename = lines <$> fs w !! filename /\
  modules w' = modules w /\ exec w' = exec w /\ fault w' = fault w /\
  promises w' = promises w /\ queue w' = queue w.
Proof.
  unfold chmodX, statSync, chmodSync, sync_call, perform, effect.
  unfold mbind, M_bind, mret, M_ret. cbn.
  destruct (fault w (StatSync filename)); cbn; [by repeat split|].
  destruct (fs w !! filename) as [f|] eqn:Hf; cbn; rewrite ?Hf; cbn;
    [|by repeat split].
  case_bool_decide; cbn; [rewrite Hf; by repeat split|].
  destruct (fault w (ChmodSync _ _)); cbn; [rewrite Hf; by repeat split|].
  rewrite Hf. destruct (parseFileMode _); cbn; [|rewrite Hf; by repeat split].
  split; [|split; [|by repeat split]].
  - intros other Hne. by rewrite lookup_insert_ne.
  - by rewrite lookup_insert_eq.
Qed.

(** X2.  On a file that does not exist, [chmodX] throws at [statSync]: nothing
    is written and [chmodSync] is not called. *)
Theorem chmodX_missing_file (filename : string) (w : world) :
  fs w !! filename = None ->
  exists e, chmodX filename w = (Throw e, add_event (Sync (StatSync filename)) w).
Proof.
  intros Hf. unfold chmodX, statSync, sync_call, perform, effect.
  unfold mbind, M_bind. cbn. rewrite Hf.
  destruct (fault w (StatSync filename)); cbn; eexists; f_equal;
    by destruct w.
Qed.

(** X3.  A second run of [chmodX] finds the mode right and writes nothing. *)
Theorem chmodX_twice (filename : string) (md : Z) (ls : list string) (w : world) :
  fs w !! filename = Some (File md ls) ->
  (0 <= md < 2 ^ 31)%Z ->
  fault w (StatSync filename) = None ->
  (forall m, fault w (ChmodSync filename m) = None) ->
  exists w1 w2,
    chmodX filename w = (Ok tt, w1) /\
    chmodX filename w1 = (Ok tt, w2) /\
    fs w2 = fs w1 /\
    log w2 = log w1 ++ [ Sync (StatSync filename) ].
Proof.
  intros Hf Hmd Hstat Hchmod.
  destruct (chmodX_run filename md ls w Hf Hmd Hstat Hchmod)
    as (w1 & Hrun1 & Hfs1 & _).
  destruct (chmodX_frame filename w) as (_ & _ & _ & _ & Hfault & _).
  rewrite Hrun1 in Hfault. cbn in Hfault.
  assert (fs w1 !! filename = Some (File (chmodX_mode md) ls)) as Hf1.
  { rewrite Hfs1. unfold chmodX_mode. case_bool_decide; [done|].
    by rewrite lookup_insert_eq. }
  destruct (chmodX_run filename (chmodX_mode md) ls w1 Hf1)
    as (w2 & Hrun2 & Hfs2 & written & Hlog2 & Hwritten).
  { by apply chmodX_mode_small. }
  { by rewrite Hfault. }
  { intros m. by rewrite Hfault. }
  rewrite bool_decide_eq_true_2 in Hfs2, Hwritten by apply chmodX_mode_fixed.
  subst written. by exists w1, w2.
Qed.

(** X4.  On a mode without set-user-ID, set-group-ID and sticky bits, [chmodX]
    is [chmod +x]: the new mode is the old one with the three execute bits
    set. *)
Theorem chmodX_plain_mode (filename : string) (md : Z) (ls : list string)
    (w : world) :
  fs w !! filename = Some (File md ls) ->
  (0 <= md < 2 ^ 16)%Z ->
  Z.land md 3584 = 0%Z ->
  fault w (StatSync filename) = None ->
  (forall m, fault w (ChmodSync filename m) = None) ->
  exists w',
    chmodX filename w = (Ok tt, w') /\
    fs w' !! filename = Some (File (Z.lor md 73) ls).
Proof.
  intros Hf Hmd Hplain Hstat Hchmod.
  destruct (chmodX_run filename md ls w Hf) as (w' & Hrun & Hfs & _);
    [lia | done | done |].
  exists w'. split; [done|]. rewrite Hfs. case_bool_decide as Hx.
  - by rewrite Hx.
  - by rewrite lookup_insert_eq, chmodX_mode_plain.
Qed.

(** X5.  When [chmodX] writes, it writes three octal digits: the set-user-ID,
    set-group-ID and sticky bits of the file (bits 9 to 11) are cleared. *)
Theorem chmodX_clears_special_bits (filename : string) (md : Z)
    (ls : list string) (w : world) :
  fs w !! filename = Some (File md ls) ->
  (0 <= md < 2 ^ 31)%Z ->
  Z.lor md 73 <> md ->
  fault w (StatSync filename) = None ->
  (forall m, fault w (ChmodSync filename m) = None) ->
  exists w' md',
    chmodX filename w = (Ok tt, w') /\
    fs w' !! filename = Some (File md' ls) /\
    forall i, (9 <= i < 12)%Z -> Z.testbit md' i = false.
Proof.
  intros Hf Hmd Hx Hstat Hchmod.
  destruct (chmodX_run filename md ls w Hf Hmd Hstat Hchmod) as (w' & Hrun & Hfs & _).
  exists w', (chmodX_mode md). split; [done|]. split.
  - rewrite Hfs, bool_decide_eq_false_2 by done. by rewrite lookup_insert_eq.
  - intros i Hi. rewrite testbit_chmodX_mode by lia.
    rewrite bool_decide_eq_false_2 by done.
    assert ((12 <=? i)%Z = false) as -> by lia.
    assert ((i <? 9)%Z = false) as -> by lia.
    by rewrite !andb_false_r.
Qed.

(** X6.  The mode string handed to [chmodSync] is made of three octal digits
    and reads back as the nine permission bits of the new mode. *)
Theorem base8_round_trip (md : Z) :
  (0 <= md < 2 ^ 31)%Z ->
  let newMode := js_or (js_or (js_or md 64) 8) 1 in
  let base8 := slice_neg 3 (toString8 newMode) in
  String.length base8 = 3 /\
  parseFileMode base8 = Some (Z.land newMode 511).
Proof.
  intros Hmd newMode base8. subst newMode base8.
  rewrite newMode_lor by done.
  pose proof (lor_73_lower md ltac:(lia)) as H64.
  split.
  - unfold toString8.
    assert ((Z.lor md 73 <? 0)%Z = false) as -> by lia.
    destruct (octal_digits_last3 (S (Z.to_nat (Z.log2 (Z.lor md 73)))) _ H64)
      as [pre Hpre].
    { assert (6 <= Z.log2 (Z.lor md 73))%Z by (apply Z.log2_le_pow2; lia). lia. }
    rewrite Hpre. unfold slice_neg.
    rewrite !length_of_chars, chars_of_chars, length_app. cbn [length].
    replace (length pre + 3 - 3) with (length pre) by lia.
    by rewrite drop_app_length.
  - rewrite base8_of_mode by done. f_equal.
    change 512%Z with (2 ^ 9)%Z. by rewrite <- Z.land_ones by lia.
Qed.

(** ** Strings *)

Lemma starts_with_app p r : starts_with p (p +:+ r) = true.
Proof.
  unfold starts_with. induction p as [|a p IH]; [by destruct r|].
  change (String a p +:+ r) with (String a (p +:+ r)). cbn.
  destruct (ascii_dec a a); [done | congruence].
Qed.

Lemma starts_with_inv p s : starts_with p s = true -> exists r, s = p +:+ r.
Proof.
  unfold starts_with. revert s. induction p as [|a p IH]; intros s H.
  - by exists s.
  - destruct s as [|b s]; [done|]. cbn in H.
    destruct (ascii_dec a b) as [<-|]; [|done].
    destruct (IH s H) as [r ->]. exists r. reflexivity.
Qed.

Lemma append_assoc_L (a b c : string) : (a +:+ b) +:+ c = a +:+ (b +:+ c).
Proof.
  induction a as [|x a IH]; [done|].
  change (String x ((a +:+ b) +:+ c) = String x (a +:+ (b +:+ c))). by rewrite IH.
Qed.

Lemma starts_with_trans p q s :
  starts_with p q = true -> starts_with q s = true -> starts_with p s = true.
Proof.
  intros [r1 ->]%starts_with_inv [r2 ->]%starts_with_inv.
  rewrite append_assoc_L. apply starts_with_app.
Qed.

(** ** What a call may write *)

Lemma foldr_rebase_frame src dst (m : gmap string file) l k :
  starts_with dst k = false ->
  foldr (fun kf acc => <[rebase src dst kf.1 := kf.2]> acc) m l !! k = m !! k.
Proof.
  intros Hk. induction l as [|[k' f'] l IH]; [reflexivity|]. cbn.
  rewrite lookup_insert_ne; [done|].
  intros <-. unfold rebase in Hk. by rewrite starts_with_app in Hk.
Qed.

Lemma copy_tree_frame src dst m m' k :
  copy_tree src dst m = Some m' -> starts_with dst k = false -> m' !! k = m !! k.
Proof.
  unfold copy_tree. intros H Hk.
  destruct (filter _ _) as [|kf found]; [done|].
  injection H as <-. by apply (foldr_rebase_frame src dst m (kf :: found)).
Qed.

Lemma effect_frame faults status mask m c k :
  footprint c k = false -> (effect faults status mask m c).1 !! k = m !! k.
Proof.
  intros Hk. unfold effect. destruct (faults c); [done|].
  destruct c as [src dst r o|src dst|name line text nl|cmd|name|name bits];
    cbn in *.
  - destruct (copy_tree _ _ _) eqn:Hc; [|done]. cbn. by eapply copy_tree_frame.
  - destruct (m !! src); [|done]. cbn. apply lookup_insert_ne.
    intros <-. by rewrite bool_decide_eq_true_2 in Hk.
  - apply orb_false_elim in Hk as [Hname Htmp].
    apply bool_decide_eq_false_1 in Hname, Htmp.
    destruct (m !! name); cbn [fst]; rewrite lookup_delete_ne by done; [|done].
    by apply lookup_insert_ne.
  - by repeat case_match.
  - by destruct (m !! name).
  - destruct (m !! name); [|done]. destruct (parseFileMode _); [|done].
    cbn. apply lookup_insert_ne. intros <-. by rewrite bool_decide_eq_true_2 in Hk.
Qed.

Lemma awaited_world b c w :
  let w' := (awaited b c w).2 in
  fs w' = (effect (fault w) (exec w) (umask w) (fs w) c).1 /\
  modules w' = modules w /\ exec w' = exec w /\ fault w' = fault w /\
  idle w' /\
  log w' = log w ++ [ Begin c;
                      End c (is_inr (effect (fault w) (exec w) (umask w) (fs w) c).2) ] /\
  unreported w' = unreported w /\ umask w' = umask w.
Proof. unfold awaited. by destruct (effect _ _ _ _ _). Qed.

Lemma awaited_modules b c w r w' :
  awaited b c w = (r, w') -> modules w' = modules w.
Proof.
  intros H. destruct (awaited_world b c w) as (_ & Hm & _).
  by rewrite H in Hm.
Qed.

(** A promise-returning call returns or throws. *)
Lemma awaited_promise_no_hang c w w' : awaited false c w <> (Hang, w').
Proof.
  unfold awaited. by destruct (effect _ _ _ _ _) as [m [e|v]].
Qed.

(** ** The hook, step by step *)

Lemma same_idle_bind {A B} (m m' : M A) (k k' : A -> M B) :
  same_idle m m' -> (forall a, same_idle (k a) (k' a)) ->
  same_idle (m ≫= k) (m' ≫= k').
Proof.
  intros Hm Hk w Hw. destruct (Hm w Hw) as [Em Hidle].
  unfold mbind, M_bind. rewrite Em.
  destruct (m' w) as [[a|e|] w1]; cbn in *; [|done..].
  by apply Hk.
Qed.

Lemma same_idle_refl {A} (m : M A) :
  (forall w, idle w -> idle (m w).2) -> same_idle m m.
Proof. intros H w Hw. split; [done | by apply H]. Qed.

Lemma same_idle_require_resolve request :
  same_idle (require_resolve request) (require_resolve request).
Proof.
  apply same_idle_refl. intros w Hw. unfold require_resolve.
  by destruct (modules w !! request).
Qed.

Lemma same_idle_chmodX filename : same_idle (chmodX filename) (chmodX filename).
Proof.
  apply same_idle_refl. intros w Hw. unfold idle in *.
  destruct (chmodX_frame filename w) as (_ & _ & _ & _ & _ & _ & Hq).
  by rewrite Hq.
Qed.

Lemma same_idle_await {B} c (k k' : M B) :
  same_idle k k' ->
  same_idle (p ← promise_returning c; await p ;; k) (awaited false c ;; k').
Proof.
  intros Hk w Hw.
  assert ((p ← promise_returning c; await p ;; k) w = (awaited false c ;; k) w) as ->.
  { rewrite <- bind_assoc. unfold mbind at 1 3, M_bind.
    by rewrite await_promise_returning. }
  apply (same_idle_bind (awaited false c) (awaited false c) (fun _ => k) (fun _ => k'));
    [|done|done].
  apply same_idle_refl. intros w0 _. apply awaited_world.
Qed.

Lemma same_idle_await_replaceFirstLine {B} filename line (k k' : M B) :
  same_idle k k' ->
  same_idle (p ← replaceFirstLine filename line; await p ;; k)
            (awaited true (LineReplace filename 1 line false) ;; k').
Proof.
  intros Hk w Hw.
  assert ((p ← replaceFirstLine filename line; await p ;; k) w
          = (awaited true (LineReplace filename 1 line false) ;; k) w) as ->.
  { rewrite <- bind_assoc. unfold mbind at 1 3, M_bind.
    by rewrite await_replaceFirstLine. }
  apply (same_idle_bind (awaited true _) (awaited true _) (fun _ => k) (fun _ => k'));
    [|done|done].
  apply same_idle_refl. intros w0 _. apply awaited_world.
Qed.

(** From an idle world the hook is the chain of its calls. *)
Lemma onEnd_steps_eq dir w :
  idle w -> cliLifecycle_onEnd dir w = onEnd_steps dir w.
Proof.
  intros Hw. revert w Hw.
  assert (same_idle (cliLifecycle_onEnd dir) (onEnd_steps dir)) as H;
    [|intros w Hw; apply (H w Hw)].
  unfold cliLifecycle_onEnd, onEnd_steps, copy, copyFile.
  apply same_idle_bind; [apply same_idle_require_resolve | intros studio].
  apply same_idle_await.
  apply same_idle_bind; [apply same_idle_require_resolve | intros checkpoint].
  apply same_idle_await.
  apply same_idle_bind; [apply same_idle_require_resolve | intros open].
  apply same_idle_await.
  apply same_idle_await.
  apply same_idle_await_replaceFirstLine.
  apply same_idle_chmodX.
Qed.

(** ** What the hook writes *)

Lemma writes_within_refl D w : writes_within D w w.
Proof. by repeat split. Qed.

Lemma writes_within_trans D w1 w2 w3 :
  writes_within D w1 w2 -> writes_within D w2 w3 -> writes_within D w1 w3.
Proof.
  intros (H1 & Hm1 & He1 & Hf1) (H2 & Hm2 & He2 & Hf2).
  repeat split; try congruence.
  intros k Hk. by rewrite H2, H1.
Qed.

Lemma steps_in_bind {A B} R (m : M A) (k : A -> M B) :
  (forall w1 w2 w3, R w1 w2 -> R w2 w3 -> R w1 w3) ->
  steps_in R m -> (forall a, steps_in R (k a)) -> steps_in R (m ≫= k).
Proof.
  intros Htrans Hm Hk w. specialize (Hm w). unfold mbind, M_bind.
  destruct (m w) as [[a|e|] w1]; cbn in *; [|done..].
  eapply Htrans; [done | apply Hk].
Qed.

Lemma steps_in_require_resolve D request :
  steps_in (writes_within D) (require_resolve request).
Proof.
  intros w. unfold require_resolve.
  destruct (modules w !! request); apply writes_within_refl.
Qed.

Lemma steps_in_awaited (D : string -> bool) b c :
  (forall k, D k = false -> footprint c k = false) ->
  steps_in (writes_within D) (awaited b c).
Proof.
  intros HD w. destruct (awaited_world b c w) as (Hfs & Hm & He & Hf & _).
  repeat split; try done.
  intros k Hk. rewrite Hfs. by apply effect_frame, HD.
Qed.

Lemma steps_in_chmodX (D : string -> bool) filename :
  D filename = true -> steps_in (writes_within D) (chmodX filename).
Proof.
  intros HD w.
  destruct (chmodX_frame filename w) as (Hother & _ & Hm & He & Hf & _).
  repeat split; try done.
  intros k Hk. apply Hother. intros ->. congruence.
Qed.

Lemma in_build_public k : in_build k = false -> starts_with "./build/public" k = false.
Proof.
  intros Hk. destruct (starts_with "./build/public" k) eqn:Hp; [|done].
  rewrite <- Hk. symmetry. by apply (starts_with_trans _ "./build/public").
Qed.

Lemma in_build_literal (k dst : string) :
  in_build dst = true -> in_build k = false -> bool_decide (k = dst) = false.
Proof. intros Hdst Hk. apply bool_decide_eq_false_2. intros ->. congruence. Qed.

Lemma steps_in_onEnd_steps dir : steps_in (writes_within in_build) (onEnd_steps dir).
Proof.
  unfold onEnd_steps.
  repeat first
    [ apply steps_in_chmodX; reflexivity
    | apply steps_in_bind; [apply writes_within_trans| |intros ?]
    | apply steps_in_require_resolve
    | apply steps_in_awaited; intros k Hk; cbn [footprint];
      first [ by apply in_build_public | by apply in_build_literal
            | apply orb_false_intro; by apply in_build_literal ] ].
Qed.

(** ** When the hook returns *)

Lemma bind_Ok_inv {A B} (m : M A) (k : A -> M B) w b w' :
  (m ≫= k) w = (Ok b, w') ->
  exists a w1, m w = (Ok a, w1) /\ k a w1 = (Ok b, w').
Proof.
  unfold mbind, M_bind. destruct (m w) as [[a|e|] w1]; [|done..].
  intros H. by exists a, w1.
Qed.

Lemma require_resolve_Ok_inv request w p w' :
  require_resolve request w = (Ok p, w') ->
  modules w !! request = Some p /\ w' = w.
Proof.
  unfold require_resolve. destruct (modules w !! request); [|done].
  by intros [= -> ->].
Qed.

Lemma awaited_promise_Ok_inv c w v w' :
  awaited false c w = (Ok v, w') ->
  (effect (fault w) (exec w) (umask w) (fs w) c).2 = inr v /\ w' = (awaited false c w).2.
Proof.
  intros H. split; [|by rewrite H].
  unfold awaited in H. destruct (effect _ _ _ _ _) as [m [e|v']]; cbn in *; congruence.
Qed.

Lemma effect_CopyFile_inr faults status mask m src dst v :
  (effect faults status mask m (CopyFile src dst)).2 = inr v ->
  exists f, m !! src = Some f /\
            (effect faults status mask m (CopyFile src dst)).1 = <[dst := f]> m.
Proof.
  unfold effect. destruct (faults _); [done|].
  destruct (m !! src) as [f|]; [|done]. by exists f.
Qed.

Lemma effect_Copy_inr faults status mask m src dst r o v :
  (effect faults status mask m (Copy src dst r o)).2 = inr v ->
  copy_tree src dst m = Some (effect faults status mask m (Copy src dst r o)).1.
Proof.
  unfold effect. destruct (faults _); [done|].
  by destruct (copy_tree src dst m).
Qed.

Lemma chmodX_Ok_inv filename md ls w w' :
  chmodX filename w = (Ok tt, w') ->
  fs w !! filename = Some (File md ls) ->
  (0 <= md < 2 ^ 31)%Z ->
  fs w' !! filename = Some (File (chmodX_mode md) ls).
Proof.
  intros Hrun Hf Hmd. revert Hrun.
  unfold chmodX, chmodX_mode, statSync, sync_call, perform, effect.
  unfold mbind, M_bind. cbn.
  destruct (fault w (StatSync filename)); cbn; [done|].
  rewrite Hf. cbn. rewrite Hf.
  rewrite newMode_lor by done. cbn [st_mode mode].
  rewrite (bool_decide_ext (md = Z.lor md 73) (Z.lor md 73 = md)) by done.
  case_bool_decide as Hx.
  - intros [= <-]. done.
  - unfold chmodSync, sync_call, perform, effect, mbind, M_bind. cbn.
    destruct (fault w (ChmodSync _ _)); cbn; [done|].
    rewrite Hf, base8_of_mode by (apply lor_73_lower; lia).
    cbn [mode lines]. intros [= <-]. cbn.
    rewrite chmod_bits by (apply Z.lor_nonneg; lia).
    by rewrite lookup_insert_eq.
Qed.

Lemma effect_inr_fault faults status mask m c v :
  (effect faults status mask m c).2 = inr v -> faults c = None.
Proof. unfold effect. by destruct (faults c). Qed.

(** The files of a run of the hook that returns: the three packages are
    found; [m1] is the file system after the copy of the studio files; the
    three single files are there when they are copied; the rewrite and the
    permission step work on what the copies leave. *)
Lemma onEnd_success dir w w' :
  idle w ->
  cliLifecycle_onEnd dir w = (Ok tt, w') ->
  exists studio checkpoint open m1 f2 f3 f4 w5,
    modules w !! "@prisma/studio/package.json" = Some studio /\
    modules w !! "checkpoint-client/package.json" = Some checkpoint /\
    modules w !! "open/package.json" = Some open /\
    copy_tree (path.join [ studio; "../dist" ]) "./build/public" (fs w) = Some m1 /\
    m1 !! path.join [ checkpoint; "../dist/child.js" ] = Some f2 /\
    <["./build/child.js" := f2]> m1 !! path.join [ open; "../xdg-open" ] = Some f3 /\
    <["./build/xdg-open" := f3]> (<["./build/child.js" := f2]> m1)
      !! path.join [ path.join [ dir; ".."; ".."; "internals"; "node_modules" ];
                     "@prisma"; "prisma-schema-wasm"; "src";
                     "prisma_schema_build_bg.wasm" ] = Some f4 /\
    fs w5
    = (effect (fault w) (exec w) (umask w)
         (<["./build/prisma_schema_build_bg.wasm" := f4]>
            (<["./build/xdg-open" := f3]> (<["./build/child.js" := f2]> m1)))
         (LineReplace "./build/index.js" 1 ("#!/usr/bin/env node" +:+ LF) false)).1 /\
    chmodX "./build/index.js" w5 = (Ok tt, w') /\
    (modules w5 = modules w /\ exec w5 = exec w /\ fault w5 = fault w /\ idle w5 /\
     unreported w5 = unreported w /\ umask w5 = umask w) /\
    fault w (Copy (path.join [ studio; "../dist" ]) "./build/public" true true) = None /\
    fault w (CopyFile (path.join [ checkpoint; "../dist/child.js" ])
                      "./build/child.js") = None /\
    fault w (CopyFile (path.join [ open; "../xdg-open" ]) "./build/xdg-open") = None /\
    fault w (CopyFile
               (path.join [ path.join [ dir; ".."; ".."; "internals"; "node_modules" ];
                            "@prisma"; "prisma-schema-wasm"; "src";
                            "prisma_schema_build_bg.wasm" ])
               "./build/prisma_schema_build_bg.wasm") = None /\
    (forall e, fault w first_line_rewrite = Some e ->
               unreported w first_line_rewrite = false).
Proof.
  intros Hw Hrun. rewrite onEnd_steps_eq in Hrun by done. unfold onEnd_steps in Hrun.
  apply bind_Ok_inv in Hrun as (studio & ? & [Hm1 ->]%require_resolve_Ok_inv & Hrun).
  apply bind_Ok_inv in Hrun as (? & w1 & [Hc1 ->]%awaited_promise_Ok_inv & Hrun).
  pose proof (effect_inr_fault _ _ _ _ _ _ Hc1) as Hfault1.
  apply effect_Copy_inr in Hc1.
  destruct (awaited_world false
              (Copy (path.join [ studio; "../dist" ]) "./build/public" true true) w)
    as (Hfs1 & Hmod1 & Hex1 & Hfa1 & _ & _ & Hun1 & Hum1).
  set (w1 := (awaited false _ w).2) in *.
  apply bind_Ok_inv in Hrun as (checkpoint & ? & [Hm2 ->]%require_resolve_Ok_inv & Hrun).
  apply bind_Ok_inv in Hrun as (? & ? & [Hc2 ->]%awaited_promise_Ok_inv & Hrun).
  pose proof (effect_inr_fault _ _ _ _ _ _ Hc2) as Hfault2.
  apply effect_CopyFile_inr in Hc2 as (f2 & Hsrc2 & Hc2).
  destruct (awaited_world false
              (CopyFile (path.join [ checkpoint; "../dist/child.js" ])
                        "./build/child.js") w1)
    as (Hfs2 & Hmod2 & Hex2 & Hfa2 & _ & _ & Hun2 & Hum2).
  set (w2 := (awaited false _ w1).2) in *.
  apply bind_Ok_inv in Hrun as (open & ? & [Hm3 ->]%require_resolve_Ok_inv & Hrun).
  apply bind_Ok_inv in Hrun as (? & ? & [Hc3 ->]%awaited_promise_Ok_inv & Hrun).
  pose proof (effect_inr_fault _ _ _ _ _ _ Hc3) as Hfault3.
  apply effect_CopyFile_inr in Hc3 as (f3 & Hsrc3 & Hc3).
  destruct (awaited_world false
              (CopyFile (path.join [ open; "../xdg-open" ]) "./build/xdg-open") w2)
    as (Hfs3 & Hmod3 & Hex3 & Hfa3 & _ & _ & Hun3 & Hum3).
  set (w3 := (awaited false _ w2).2) in *.
  apply bind_Ok_inv in Hrun as (? & ? & [Hc4 ->]%awaited_promise_Ok_inv & Hrun).
  pose proof (effect_inr_fault _ _ _ _ _ _ Hc4) as Hfault4.
  apply effect_CopyFile_inr in Hc4 as (f4 & Hsrc4 & Hc4).
  match type of Hrun with
  | context [ (awaited false ?c w3).2 ] =>
      destruct (awaited_world false c w3)
        as (Hfs4 & Hmod4 & Hex4 & Hfa4 & _ & _ & Hun4 & Hum4);
      set (w4 := (awaited false c w3).2) in *
  end.
  apply bind_Ok_inv in Hrun as (? & w5 & Hc5 & Hrun).
  match type of Hc5 with
  | awaited true ?c w4 = _ =>
      destruct (awaited_world true c w4)
        as (Hfs5 & Hmod5 & Hex5 & Hfa5 & Hidle5 & _ & Hun5 & Hum5);
      rewrite Hc5 in Hfs5, Hmod5, Hex5, Hfa5, Hidle5, Hun5, Hum5;
      cbn [snd] in Hfs5, Hmod5, Hex5, Hfa5, Hidle5, Hun5, Hum5
  end.
  assert (forall e, fault w first_line_rewrite = Some e ->
                    unreported w first_line_rewrite = false) as Htold.
  { intros e He. revert Hc5. unfold awaited, effect.
    rewrite Hfa4, Hfa3, Hfa2, Hfa1, Hun4, Hun3, Hun2, Hun1.
    fold first_line_rewrite. rewrite He. cbn.
    by destruct (unreported w first_line_rewrite). }
  exists studio, checkpoint, open, (fs w1), f2, f3, f4, w5.
  rewrite Hmod1 in Hm2. rewrite Hmod2, Hmod1 in Hm3.
  rewrite Hfs2, Hc2 in Hsrc3. rewrite Hfs3, Hc3, Hfs2, Hc2 in Hsrc4.
  rewrite Hfs4, Hc4, Hfs3, Hc3, Hfs2, Hc2 in Hfs5.
  rewrite Hfa4, Hfa3, Hfa2, Hfa1, Hex4, Hex3, Hex2, Hex1 in Hfs5.
  rewrite Hum4, Hum3, Hum2, Hum1 in Hfs5.
  rewrite <- Hfs1 in Hc1.
  rewrite Hfa1 in Hfault2. rewrite Hfa2, Hfa1 in Hfault3.
  rewrite Hfa3, Hfa2, Hfa1 in Hfault4.
  repeat split; try done; congruence.
Qed.

(** ** When everything is in place *)

Lemma lor_16 a b :
  (0 <= a < 2 ^ 16)%Z -> (0 <= b < 2 ^ 16)%Z -> (0 <= Z.lor a b < 2 ^ 16)%Z.
Proof.
  intros Ha Hb. split; [apply Z.lor_nonneg; lia|].
  destruct (Z.eq_dec (Z.lor a b) 0%Z) as [->|Hne]; [lia|].
  apply Z.log2_lt_pow2; [assert (0 <= Z.lor a b)%Z by (apply Z.lor_nonneg; lia); lia|].
  rewrite Z.log2_lor by lia.
  apply Z.max_lub_lt.
  - destruct (Z.eq_dec a 0%Z) as [->|]; [done|]. apply Z.log2_lt_pow2; lia.
  - destruct (Z.eq_dec b 0%Z) as [->|]; [done|]. apply Z.log2_lt_pow2; lia.
Qed.

(** The permissions of a file created with permissions 666 (octal) are
    among its nine permission bits, whatever the mask. *)
Lemma created_perm_small mask : (0 <= Z.land 438 (Z.lnot mask) < 512)%Z.
Proof.
  assert (Z.land 438 (Z.lnot mask) = Z.land (Z.land 438 (Z.lnot mask)) (Z.ones 9))
    as ->.
  { rewrite (Z.land_comm 438), <- Z.land_assoc. reflexivity. }
  rewrite Z.land_ones by lia. change (2 ^ 9)%Z with 512%Z.
  apply Z.mod_pos_bound. lia.
Qed.

Lemma created_mode_bounds mask : (0 <= created_mode mask 438 < 2 ^ 16)%Z.
Proof.
  unfold created_mode, S_IFREG. pose proof (created_perm_small mask).
  apply lor_16; lia.
Qed.

Lemma created_mode_plain mask : Z.land (created_mode mask 438) 3584 = 0%Z.
Proof.
  unfold created_mode, S_IFREG. rewrite Z.land_lor_distr_l.
  rewrite (Z.land_comm 438), <- (Z.land_assoc _ 438).
  change (Z.land 438 3584) with 0%Z. change (Z.land 32768 3584) with 0%Z.
  by rewrite Z.land_0_r.
Qed.

Lemma created_mode_no_execute mask :
  Z.lor (created_mode mask 438) 73 <> created_mode mask 438.
Proof.
  intros H. apply (f_equal (fun z => Z.testbit z 0)) in H.
  unfold created_mode, S_IFREG in H.
  rewrite !Z.lor_spec, Z.land_spec in H. discriminate.
Qed.

(** The mode of the output file once staged: a new file made executable. *)
Lemma chmodX_mode_created mask :
  chmodX_mode (created_mode mask 438) = Z.lor (created_mode mask 438) 73.
Proof.
  apply chmodX_mode_plain; [|apply created_mode_plain].
  pose proof (created_mode_bounds mask). lia.
Qed.

Lemma require_resolve_Ok request w p :
  modules w !! request = Some p -> require_resolve request w = (Ok p, w).
Proof. intros H. unfold require_resolve. by rewrite H. Qed.

Lemma awaited_Ok b c w m v :
  effect (fault w) (exec w) (umask w) (fs w) c = (m, inr v) ->
  awaited b c w = (Ok v, after c m v w).
Proof. unfold awaited. by intros ->. Qed.





Section MoreProperties.

Variable __dirname : string.
Variable cwd : string.

Local Abbreviation onEnd := (cliLifecycle_onEnd __dirname).

Lemma onEnd_frame (w : world) :
  idle w ->
  forall k, in_build k = false -> fs (onEnd w).2 !! k = fs w !! k.
Proof.
  intros Hw k Hk. rewrite onEnd_steps_eq by done.
  by apply (steps_in_onEnd_steps __dirname w).
Qed.

(** X9.  When one of the three packages is not found, the hook throws. *)
Theorem onEnd_needs_packages (w : world) :
  idle w ->
  modules w !! "@prisma/studio/package.json" = None \/
  modules w !! "checkpoint-client/package.json" = None \/
  modules w !! "open/package.json" = None ->
  exists e w', onEnd w = (Throw e, w').
Proof.
  intros Hw Hmissing. rewrite onEnd_steps_eq by done. unfold onEnd_steps.
  unfold mbind, M_bind, require_resolve.
  destruct (modules w !! "@prisma/studio/package.json") as [studio|] eqn:H1;
    [|by eauto].
  destruct (awaited false _ w) as [[v1|e1|] w1] eqn:E1;
    [|by eauto|by apply awaited_promise_no_hang in E1].
  apply awaited_modules in E1. rewrite E1.
  destruct (modules w !! "checkpoint-client/package.json") as [checkpoint|] eqn:H2;
    [|by eauto].
  destruct (awaited false _ w1) as [[v2|e2|] w2] eqn:E2;
    [|by eauto|by apply awaited_promise_no_hang in E2].
  apply awaited_modules in E2. rewrite E2, E1.
  destruct (modules w !! "open/package.json") as [open|] eqn:H3; [|by eauto].
  by destruct Hmissing as [|[|]].
Qed.

Lemma onEnd_files (w w' : world) (checkpoint open : string) :
  idle w ->
  onEnd w = (Ok tt, w') ->
  modules w !! "checkpoint-client/package.json" = Some checkpoint ->
  modules w !! "open/package.json" = Some open ->
  let child := path.join [ checkpoint; "../dist/child.js" ] in
  let xdg := path.join [ open; "../xdg-open" ] in
  let wasm :=
    path.join [ path.join [ __dirname; ".."; ".."; "internals"; "node_modules" ];
                "@prisma"; "prisma-schema-wasm"; "src";
                "prisma_schema_build_bg.wasm" ] in
  in_build child = false -> in_build xdg = false -> in_build wasm = false ->
  is_Some (fs w !! child) /\ fs w' !! "./build/child.js" = fs w !! child /\
  is_Some (fs w !! xdg) /\ fs w' !! "./build/xdg-open" = fs w !! xdg /\
  is_Some (fs w !! wasm) /\
  fs w' !! "./build/prisma_schema_build_bg.wasm" = fs w !! wasm.
Proof.
  intros Hw Hrun Hcp Hop child xdg wasm Hchild Hxdg Hwasm.
  destruct (onEnd_success __dirname w w' Hw Hrun)
    as (studio & checkpoint' & open' & m1 & f2 & f3 & f4 & w5
        & _ & Hcp' & Hop' & Hm1 & H2 & H3 & H4 & Hfs5 & Hx & _).
  assert (checkpoint' = checkpoint) as -> by congruence.
  assert (open' = open) as -> by congruence.
  fold child in H2. fold xdg in H3. fold wasm in H4.
  assert (forall k, in_build k = false -> m1 !! k = fs w !! k) as Hframe1.
  { intros k Hk. eapply copy_tree_frame; [done | by apply in_build_public]. }
  assert (forall k dst (f : file) (m : gmap string file),
             in_build k = false -> in_build dst = true ->
             <[dst := f]> m !! k = m !! k) as Hne.
  { intros k dst f m Hk Hdst. apply lookup_insert_ne. intros ->. congruence. }
  rewrite Hframe1 in H2 by done.
  rewrite Hne, Hframe1 in H3 by done.
  rewrite !Hne, Hframe1 in H4 by done.
  destruct (chmodX_frame "./build/index.js" w5) as (Hother & _).
  rewrite Hx in Hother. cbn [snd] in Hother.
  assert (forall k, k <> "./build/index.js" -> k <> "./build/index.js.tmp" ->
                    fs w' !! k
                    = <["./build/prisma_schema_build_bg.wasm" := f4]>
                        (<["./build/xdg-open" := f3]>
                           (<["./build/child.js" := f2]> m1)) !! k) as Hlast.
  { intros k Hk Htmp. rewrite Hother, Hfs5 by done.
    apply effect_frame. cbn [footprint]. apply orb_false_intro;
      by apply bool_decide_eq_false_2. }
  rewrite !Hlast by done.
  rewrite H2, H3, H4.
  repeat split; try done.
  - rewrite !lookup_insert_ne by done. by rewrite lookup_insert_eq.
  - rewrite lookup_insert_ne by done. by rewrite lookup_insert_eq.
  - by rewrite lookup_insert_eq.
Qed.

(** X11.  When the hook returns and the rewrite went through, the output file
    starts with the interpreter directive and keeps its other lines.  It is
    a new file, made under the mask of the process whatever the mode of the
    old one, with the three execute bits set. *)
Theorem onEnd_output_file (w w' : world) (md : Z) (first : string)
    (rest : list string) :
  idle w ->
  onEnd w = (Ok tt, w') ->
  fs w !! "./build/index.js" = Some (File md (first :: rest)) ->
  forallb plain rest = true ->
  fs w !! "./build/index.js.tmp" = None ->
  fault w first_line_rewrite = None ->
  fs w' !! "./build/index.js"
  = Some (File (Z.lor (created_mode (umask w) 438) 73)
               ("#!/usr/bin/env node" :: rest)).
Proof.
  intros Hw Hrun Hf Hrest Htmp Hfault.
  destruct (onEnd_success __dirname w w' Hw Hrun)
    as (studio & checkpoint & open & m1 & f2 & f3 & f4 & w5
        & _ & _ & _ & Hm1 & _ & _ & _ & Hfs5 & Hx & _).
  assert (fs w5 !! "./build/index.js"
          = Some (File (created_mode (umask w) 438)
                       ("#!/usr/bin/env node" :: rest))) as Hf5.
  { rewrite Hfs5.
    rewrite (effect_LineReplace_first _ _ _ _ _ "#!/usr/bin/env node" first rest md);
      [|rewrite !lookup_insert_ne by done;
        by rewrite (copy_tree_frame _ _ _ _ _ Hm1)
       |done|done|done].
    change (temp_file "./build/index.js") with "./build/index.js.tmp".
    rewrite !lookup_insert_ne by done.
    rewrite (copy_tree_frame _ _ _ _ _ Hm1), Htmp by done.
    cbn [fst]. rewrite lookup_delete_ne by done. by rewrite lookup_insert_eq. }
  pose proof (created_mode_bounds (umask w)) as Hbounds.
  rewrite (chmodX_Ok_inv _ _ _ _ _ Hx Hf5) by lia.
  by rewrite chmodX_mode_created.
Qed.


End MoreProperties.

(** ** A failed copy stops the hook *)

Lemma fail_fast_bind {A B} (m : M A) (k : A -> M B) :
  fail_fast m -> (forall a, fail_fast (k a)) -> fail_fast (m ≫= k).
Proof.
  intros Hm Hk w Hw.
  destruct (Hm w Hw) as (r1 & w1 & evs1 & E1 & Hw1 & Hlog1 & Hab1).
  unfold mbind, M_bind. rewrite E1. destruct r1 as [a|e|].
  - destruct (Hk a w1 Hw1) as (r2 & w2 & evs2 & E2 & Hw2 & Hlog2 & Hab2).
    exists r2, w2, (evs1 ++ evs2). split; [done|]. split; [done|].
    split; [by rewrite Hlog2, Hlog1, <- app_assoc|].
    intros c [Hin|Hin]%elem_of_app Hc.
    + by destruct (Hab1 c Hin Hc) as [[e He] _].
    + destruct (Hab2 c Hin Hc) as [Hr Hlast]. split; [done|].
      by rewrite last_app, Hlast.
  - exists (Throw e), w1, evs1. split; [done|]. split; [done|]. split; [done|].
    intros c Hin Hc. destruct (Hab1 c Hin Hc) as [_ Hlast]. eauto.
  - exists Hang, w1, evs1. split; [done|]. split; [done|]. split; [done|].
    intros c Hin Hc. by destruct (Hab1 c Hin Hc) as [[e He] _].
Qed.

Lemma fail_fast_require_resolve request : fail_fast (require_resolve request).
Proof.
  intros w Hw. unfold require_resolve.
  destruct (modules w !! request) as [p|]; eexists _, w, [];
    (split; [reflexivity|]); rewrite app_nil_r;
    (split; [done|]); (split; [done|]);
    intros c Hin; by apply elem_of_nil in Hin.
Qed.

Lemma fail_fast_awaited b c :
  (b = true -> stage_of c = Some FirstLine) -> fail_fast (awaited b c).
Proof.
  intros Hb w Hw. unfold awaited.
  destruct (effect _ _ _ _ _) as [m r].
  eexists _, _, [ Begin c; End c (is_inr r) ].
  split; [reflexivity|]. split; [done|]. split; [done|].
  intros c' Hin Hc'.
  apply elem_of_cons in Hin as [|Hin]; [done|].
  apply list_elem_of_singleton in Hin.
  assert (c' = c /\ is_inr r = false) as [-> Hr] by (by injection Hin).
  destruct r as [e|v]; [|done]. cbn.
  destruct b; [by specialize (Hb eq_refl)|]. eauto.
Qed.

Lemma chmodX_log filename w :
  exists evs,
    log (chmodX filename w).2 = log w ++ evs /\
    forall e, e ∈ evs -> exists c, e = Sync c.
Proof.
  unfold chmodX, statSync, chmodSync, sync_call, perform, effect.
  unfold mbind, M_bind, mret, M_ret. cbn.
  assert (forall c e, e ∈ [ Sync c ] -> exists c', e = Sync c') as H1.
  { intros c e Hin. apply list_elem_of_singleton in Hin as ->. eauto. }
  assert (forall c1 c2 e, e ∈ [ Sync c1; Sync c2 ] -> exists c', e = Sync c') as H2.
  { intros c1 c2 e Hin. apply elem_of_cons in Hin as [->|Hin]; [by eauto|].
    apply list_elem_of_singleton in Hin as ->. eauto. }
  destruct (fault w (StatSync filename)); cbn;
    [eexists; split; [reflexivity | by apply H1]|].
  destruct (fs w !! filename) as [f|] eqn:Hf; cbn; rewrite ?Hf; cbn;
    [|eexists; split; [reflexivity | by apply H1]].
  case_bool_decide; cbn; [eexists; split; [reflexivity | by apply H1]|].
  destruct (fault w (ChmodSync _ _)); cbn;
    [eexists; split; [by rewrite <- app_assoc | by apply H2]|].
  rewrite Hf. destruct (parseFileMode _); cbn;
    eexists; (split; [by rewrite <- app_assoc | by apply H2]).
Qed.

Lemma fail_fast_chmodX filename : fail_fast (chmodX filename).
Proof.
  intros w Hw. destruct (chmodX_log filename w) as (evs & Hlog & Hsync).
  destruct (chmodX_frame filename w) as (_ & _ & _ & _ & _ & _ & Hq).
  destruct (chmodX filename w) as [r w'] eqn:E. cbn in *.
  exists r, w', evs. split; [done|]. split; [unfold idle; congruence|].
  split; [done|].
  intros c Hin _. by destruct (Hsync _ Hin).
Qed.

Lemma fail_fast_onEnd_steps dir : fail_fast (onEnd_steps dir).
Proof.
  unfold onEnd_steps.
  repeat first
    [ apply fail_fast_chmodX
    | apply fail_fast_bind; [|intros ?]
    | apply fail_fast_require_resolve
    | apply fail_fast_awaited; done ].
Qed.

(** X13.  A copy that fails is the last thing the hook does: the hook throws,
    and no later step starts. *)
Theorem onEnd_failed_copy_aborts (dir : string) (w : world) :
  idle w ->
  exists r w' evs,
    cliLifecycle_onEnd dir w = (r, w') /\
    log w' = log w ++ evs /\
    forall c, End c false ∈ evs -> stage_of c <> Some FirstLine ->
              (exists e, r = Throw e) /\ last evs = Some (End c false).
Proof.
  intros Hw. rewrite onEnd_steps_eq by done.
  destruct (fail_fast_onEnd_steps dir w Hw) as (r & w' & evs & E & _ & Hlog & Hab).
  by exists r, w', evs.
Qed.

(** ** The plugins together, the start hook *)

Section ScriptProperties.

Variable __dirname : string.
Variable cwd : string.

Local Abbreviation lifecycle := (cliLifecyclePlugin __dirname).
Local Abbreviation externalPkg := (externalPackageJson __dirname cwd).

(** X15.  The two plugins of the cli target do not depend on their order: set up
    one after the other, either way, they register the same callbacks, or
    fail with the same error. *)
Theorem plugins_commute (b : esbuild.PluginBuild) :
  setup_all [ lifecycle; externalPkg ] b = setup_all [ externalPkg; lifecycle ] b.
Proof.
  unfold setup_all, cliLifecyclePlugin, externalPackageJson. cbn [esbuild.setup].
  destruct (esbuild.initialOptions b ≫= esbuild.outfile) as [o|] eqn:Ho;
    case_bool_decide as Hf; cbn; rewrite ?Ho; cbn;
    try (rewrite bool_decide_eq_true_2 by done);
    try (rewrite bool_decide_eq_false_2 by done);
    done.
Qed.

(** X16.  The start hook returns exactly when the pre-build command is run and
    exits with status 0; otherwise it throws. *)
Theorem onStart_returns_iff (w : world) :
  idle w ->
  exists r w',
    cliLifecycle_onStart w = (r, w') /\
    (r = Ok tt <->
     fault w prebuild = None /\
     exec w "node -r esbuild-register ./helpers/copy-prisma-client.ts" = Some 0%Z) /\
    (r <> Ok tt -> exists e, r = Throw e).
Proof.
  intros Hw. unfold cliLifecycle_onStart, run.
  rewrite <- bind_assoc. unfold mbind at 1, M_bind.
  rewrite await_promise_returning by done. unfold awaited, effect.
  fold prebuild. destruct (fault w prebuild) as [e|]; cbn.
  { eexists _, _. split; [reflexivity|]. cbn. split; [|by eauto].
    split; [done | by intros [? _]]. }
  unfold prebuild at 1.
  destruct (exec w _) as [[|p|p]|]; cbn;
    (eexists _, _; split; [reflexivity|]; cbn; split;
     [split; [done || by intros [_ ?] | done || by intros [_ ?]] | by eauto]).
Qed.

End ScriptProperties.

(** ** The recursive copy *)

Lemma append_inj_l a b c : a +:+ b = a +:+ c -> b = c.
Proof.
  induction a as [|x a IH]; [done|].
  change (String x (a +:+ b) = String x (a +:+ c) -> b = c).
  intros [= H]. by apply IH.
Qed.

Lemma rebase_app src dst suffix : rebase src dst (src +:+ suffix) = dst +:+ suffix.
Proof.
  unfold rebase. by rewrite chars_app, length_chars, drop_app_length, of_chars_chars.
Qed.

Lemma is_under_inv src k : is_under src k = true -> exists suffix, k = src +:+ suffix.
Proof.
  unfold is_under. intros [H|H]%orb_prop.
  - apply bool_decide_eq_true_1 in H as ->. exists "".
    induction src as [|x s IH]; [done|].
    change (String x s = String x (s +:+ "")). by rewrite <- IH.
  - apply starts_with_inv in H as [r ->]. exists ("/" +:+ r).
    by rewrite append_assoc_L.
Qed.

Lemma rebase_inj src dst k1 k2 :
  is_under src k1 = true -> is_under src k2 = true ->
  rebase src dst k1 = rebase src dst k2 -> k1 = k2.
Proof.
  intros [s1 ->]%is_under_inv [s2 ->]%is_under_inv.
  rewrite !rebase_app. by intros ->%append_inj_l.
Qed.

Lemma foldr_rebase_lookup src dst (m : gmap string file) (l : list (string * file)) k f :
  NoDup l.*1 ->
  (forall kf, kf ∈ l -> is_under src kf.1 = true) ->
  (k, f) ∈ l ->
  foldr (fun kf acc => <[rebase src dst kf.1 := kf.2]> acc) m l
    !! rebase src dst k = Some f.
Proof.
  induction l as [|[k' f'] l IH]; intros Hnd Hunder Hin.
  - by apply elem_of_nil in Hin.
  - cbn. apply NoDup_cons in Hnd as [Hk' Hnd].
    apply elem_of_cons in Hin as [[= -> ->]|Hin]; [by rewrite lookup_insert_eq|].
    rewrite lookup_insert_ne.
    + apply IH; [done| |done]. intros kf Hkf. apply Hunder. by right.
    + intros Heq. apply rebase_inj in Heq.
      * subst k'. apply Hk'. apply list_elem_of_fmap. by exists (k, f).
      * apply (Hunder (k', f')). by left.
      * apply (Hunder (k, f)). by right.
Qed.

(** Every file at or below [src] is found at the same place below [dst]. *)
Lemma copy_tree_lookup src dst (m m' : gmap string file) k f :
  copy_tree src dst m = Some m' ->
  is_under src k = true -> m !! k = Some f ->
  m' !! rebase src dst k = Some f.
Proof.
  unfold copy_tree. intros H Hk Hf.
  set (found := filter _ _) in H.
  assert ((k, f) ∈ found) as Hin.
  { apply list_elem_of_filter. split; [done | by apply elem_of_map_to_list]. }
  assert (NoDup found.*1) as Hnd.
  { apply NoDup_fmap_fst.
    - intros k0 f1 f2 [_ H1%elem_of_map_to_list]%list_elem_of_filter
        [_ H2%elem_of_map_to_list]%list_elem_of_filter. congruence.
    - apply NoDup_filter, NoDup_map_to_list. }
  assert (forall kf, kf ∈ found -> is_under src kf.1 = true) as Hunder.
  { by intros kf [? _]%list_elem_of_filter. }
  destruct found as [|kf found']; [by apply elem_of_nil in Hin|].
  injection H as <-.
  by apply (foldr_rebase_lookup src dst m (kf :: found')).
Qed.

Lemma onEnd_tree (dir : string) (w w' : world) (studio : string) :
  idle w ->
  cliLifecycle_onEnd dir w = (Ok tt, w') ->
  modules w !! "@prisma/studio/package.json" = Some studio ->
  let dist := path.join [ studio; "../dist" ] in
  forall k f,
    is_under dist k = true -> fs w !! k = Some f ->
    fs w' !! rebase dist "./build/public" k = Some f.
Proof.
  intros Hw Hrun Hst dist k f Hk Hf.
  destruct (onEnd_success dir w w' Hw Hrun)
    as (studio' & checkpoint & open & m1 & f2 & f3 & f4 & w5
        & Hst' & _ & _ & Hm1 & _ & _ & _ & Hfs5 & Hx & _).
  assert (studio' = studio) as -> by congruence. fold dist in Hm1.
  pose proof (copy_tree_lookup _ _ _ _ _ _ Hm1 Hk Hf) as Hcopied.
  destruct (is_under_inv _ _ Hk) as [suffix ->].
  rewrite rebase_app in *.
  assert (forall l, starts_with "./build/public" l = false ->
                    "./build/public" +:+ suffix <> l) as Hne.
  { intros l Hl <-. by rewrite starts_with_app in Hl. }
  destruct (chmodX_frame "./build/index.js" w5) as (Hother & _).
  rewrite Hx in Hother. cbn [snd] in Hother.
  rewrite Hother, Hfs5 by (by apply Hne).
  rewrite effect_frame
    by (cbn; apply bool_decide_eq_false_2; by apply Hne).
  by rewrite !lookup_insert_ne by (apply not_eq_sym; by apply Hne).
Qed.

(** ** Running the hook again *)

Lemma copy_tree_Some_inv src dst (m m' : gmap string file) :
  copy_tree src dst m = Some m' ->
  exists k f, is_under src k = true /\ m !! k = Some f.
Proof.
  unfold copy_tree. destruct (filter _ _) as [|[k f] found] eqn:Hfound; [done|].
  intros _. exists k, f.
  assert ((k, f) ∈ filter (fun kf => is_under src kf.1 = true) (map_to_list m))
    as [Hk Hin]%list_elem_of_filter by (rewrite Hfound; by left).
  split; [done | by apply elem_of_map_to_list].
Qed.

Lemma foldr_rebase_id src dst (m : gmap string file) (l : list (string * file)) :
  (forall kf, kf ∈ l -> m !! rebase src dst kf.1 = Some kf.2) ->
  foldr (fun kf acc => <[rebase src dst kf.1 := kf.2]> acc) m l = m.
Proof.
  induction l as [|kf l IH]; intros H; [done|]. cbn.
  rewrite IH by (intros kf' Hkf'; apply H; by right).
  apply insert_id, H. by left.
Qed.

(** A tree that is already in place is copied onto itself. *)
Lemma copy_tree_again src dst (m : gmap string file) :
  (exists k f, is_under src k = true /\ m !! k = Some f) ->
  (forall k f, is_under src k = true -> m !! k = Some f ->
               m !! rebase src dst k = Some f) ->
  copy_tree src dst m = Some m.
Proof.
  intros (k & f & Hk & Hf) Hthere. unfold copy_tree.
  set (found := filter _ _).
  assert ((k, f) ∈ found) as Hin.
  { apply list_elem_of_filter. split; [done | by apply elem_of_map_to_list]. }
  assert (forall kf, kf ∈ found -> m !! rebase src dst kf.1 = Some kf.2) as Hall.
  { intros [k' f'] [Hk' Hin']%list_elem_of_filter. cbn in *.
    apply Hthere; [done | by apply elem_of_map_to_list]. }
  destruct found as [|kf found']; [by apply elem_of_nil in Hin|].
  f_equal. by apply (foldr_rebase_id src dst m (kf :: found')).
Qed.

Lemma awaited_promise_replay c w0 w v :
  settled_like w0 w ->
  effect (fault w0) (exec w0) (umask w0) (fs w0) c = (fs w0, inr v) ->
  exists w1, awaited false c w = (Ok v, w1) /\ settled_like w0 w1.
Proof.
  intros (Hfs & Hm & He & Hf & Hu & Hk & Hi) Heff. unfold awaited.
  rewrite Hfs, He, Hf, Hk, Heff. cbn. eexists. split; [reflexivity|].
  by repeat split.
Qed.

(** A rewrite that fails, and says so, leaves the files as they are. *)
Lemma awaited_callback_replay c w0 w e :
  settled_like w0 w ->
  fault w0 c = Some e -> unreported w0 c = false ->
  exists v w1, awaited true c w = (Ok v, w1) /\ settled_like w0 w1.
Proof.
  intros (Hfs & Hm & He & Hf & Hu & Hk & Hi) Hfault Htold.
  unfold awaited, effect. rewrite Hf, Hu, Hfault, Htold. cbn.
  eexists _, _. split; [reflexivity|]. by repeat split.
Qed.

Lemma chmodX_Ok_fault filename w w' :
  chmodX filename w = (Ok tt, w') -> fault w (StatSync filename) = None.
Proof.
  unfold chmodX, statSync, sync_call, perform, effect, mbind, M_bind. cbn.
  by destruct (fault w (StatSync filename)).
Qed.

Lemma chmodX_noop filename md ls w :
  fs w !! filename = Some (File md ls) ->
  (0 <= md < 2 ^ 31)%Z ->
  Z.lor md 73 = md ->
  fault w (StatSync filename) = None ->
  chmodX filename w = (Ok tt, add_event (Sync (StatSync filename)) w).
Proof.
  intros Hf Hmd Hx Hstat.
  unfold chmodX, statSync, sync_call, perform, effect, mbind, M_bind. cbn.
  rewrite Hstat, Hf. cbn. rewrite Hf, newMode_lor by done. cbn [st_mode mode].
  rewrite bool_decide_eq_true_2 by done. cbn. by destruct w.
Qed.

(** What [chmodX] does depends on the file and on the failures of its two
    calls only: where it has returned, it returns again on the same file. *)
Lemma chmodX_replay filename md ls w w' w2 :
  chmodX filename w = (Ok tt, w') ->
  fs w !! filename = Some (File md ls) ->
  (0 <= md < 2 ^ 31)%Z ->
  fs w2 !! filename = Some (File md ls) ->
  fault w2 = fault w ->
  exists w3,
    chmodX filename w2 = (Ok tt, w3) /\
    fs w3 = (if bool_decide (Z.lor md 73 = md) then fs w2
             else <[filename := File (chmodX_mode md) ls]> (fs w2)).
Proof.
  intros Hrun Hf Hmd Hf2 Hfa. revert Hrun.
  unfold chmodX, chmodX_mode, statSync, sync_call, perform, effect.
  unfold mbind, M_bind. cbn. rewrite Hfa.
  destruct (fault w (StatSync filename)); cbn; [done|].
  rewrite Hf, Hf2. cbn. rewrite Hf, Hf2.
  rewrite newMode_lor by done. cbn [st_mode mode].
  rewrite (bool_decide_ext (md = Z.lor md 73) (Z.lor md 73 = md)) by done.
  case_bool_decide as Hx.
  - intros _. by eexists.
  - unfold chmodSync, sync_call, perform, effect, mbind, M_bind. cbn. rewrite Hfa.
    destruct (fault w (ChmodSync _ _)); cbn; [done|].
    rewrite Hf, Hf2, base8_of_mode by (apply lor_73_lower; lia).
    cbn [mode lines]. intros _. eexists. split; [reflexivity|]. cbn.
    by rewrite chmod_bits by (apply Z.lor_nonneg; lia).
Qed.

Lemma chmodX_oracles filename w :
  unreported (chmodX filename w).2 = unreported w /\
  umask (chmodX filename w).2 = umask w.
Proof.
  unfold chmodX, statSync, chmodSync, sync_call, perform, effect.
  unfold mbind, M_bind, mret, M_ret. cbn.
  destruct (fault w (StatSync filename)); cbn; [done|].
  destruct (fs w !! filename) as [f|] eqn:Hf; cbn; rewrite ?Hf; cbn; [|done].
  case_bool_decide; cbn; [done|].
  destruct (fault w (ChmodSync _ _)); cbn; [done|].
  rewrite ?Hf. by destruct (parseFileMode _).
Qed.

Lemma effect_CopyFile_again faults status mask (m : gmap string file) src dst f :
  faults (CopyFile src dst) = None ->
  m !! src = Some f -> m !! dst = Some f ->
  effect faults status mask m (CopyFile src dst) = (m, inr VUndefined).
Proof.
  intros Hfault Hsrc Hdst. unfold effect. rewrite Hfault, Hsrc.
  by rewrite insert_id.
Qed.

Lemma absolute_not_in_build k : path.isAbsolute k = true -> in_build k = false.
Proof. intros [r ->]%starts_with_inv. reflexivity. Qed.

Lemma absolute_under src k :
  path.isAbsolute src = true -> is_under src k = true -> path.isAbsolute k = true.
Proof.
  intros Habs [suffix ->]%is_under_inv.
  apply (starts_with_trans _ src); [done | apply starts_with_app].
Qed.

(** Rewriting the first line twice with a text that ends its line is
    rewriting it once. *)
Lemma replace_line_again text ls :
  plain text = true -> forallb plain ls = true ->
  replace_line 1 (text +:+ LF) false (replace_line 1 (text +:+ LF) false ls)
  = replace_line 1 (text +:+ LF) false ls.
Proof.
  intros Ht Hls. destruct ls as [|first rest]; [done|].
  cbn in Hls. apply andb_prop in Hls as [_ Hrest].
  by rewrite !replace_line_first.
Qed.

(** A file written again with what it holds, its temporary file gone. *)
Lemma rewrite_in_place (m : gmap string file) k t (x y : file) :
  k <> t -> m !! k = Some x -> m !! t = None ->
  <[k := x]> (delete t (<[k := y]> m)) = m.
Proof.
  intros Hne Hk Ht. apply map_eq. intros i.
  destruct (decide (i = k)) as [->|Hik]; [by rewrite lookup_insert_eq|].
  rewrite lookup_insert_ne by done.
  destruct (decide (i = t)) as [->|Hit]; [by rewrite lookup_delete_eq|].
  rewrite lookup_delete_ne by done. by rewrite lookup_insert_ne.
Qed.

(** X14.  Run on its own result, the hook returns again and leaves every
    file as the first run left it: the copies put the same files in the same
    places, and the output file, when it is written again, gets the same
    lines and the same mode.  The sources are taken to be absolute paths, as
    [require.resolve] gives them, the lines of the output file to be plain,
    and no temporary file to be left behind before the first run. *)
Theorem onEnd_twice (dir : string) (w w' : world) (studio checkpoint open : string)
    (md : Z) (ls : list string) :
  idle w ->
  cliLifecycle_onEnd dir w = (Ok tt, w') ->
  modules w !! "@prisma/studio/package.json" = Some studio ->
  modules w !! "checkpoint-client/package.json" = Some checkpoint ->
  modules w !! "open/package.json" = Some open ->
  path.isAbsolute (path.join [ studio; "../dist" ]) = true ->
  path.isAbsolute (path.join [ checkpoint; "../dist/child.js" ]) = true ->
  path.isAbsolute (path.join [ open; "../xdg-open" ]) = true ->
  path.isAbsolute
    (path.join [ path.join [ dir; ".."; ".."; "internals"; "node_modules" ];
                 "@prisma"; "prisma-schema-wasm"; "src";
                 "prisma_schema_build_bg.wasm" ]) = true ->
  fs w !! "./build/index.js" = Some (File md ls) ->
  (0 <= md < 2 ^ 31)%Z ->
  forallb plain ls = true ->
  fs w !! "./build/index.js.tmp" = None ->
  exists w'', cliLifecycle_onEnd dir w' = (Ok tt, w'') /\ fs w'' = fs w'.
Proof.
  intros Hw Hrun Hst Hcp Hop Adist Achild Axdg Awasm Hindex Hmd Hplain Htmp.
  set (dist := path.join [ studio; "../dist" ]) in *.
  set (child := path.join [ checkpoint; "../dist/child.js" ]) in *.
  set (xdg := path.join [ open; "../xdg-open" ]) in *.
  set (wasm := path.join [ path.join [ dir; ".."; ".."; "internals"; "node_modules" ];
                           "@prisma"; "prisma-schema-wasm"; "src";
                           "prisma_schema_build_bg.wasm" ]) in *.
  (* what the first run leaves *)
  pose proof (onEnd_frame dir w Hw) as Hframe.
  rewrite Hrun in Hframe. cbn [snd] in Hframe.
  pose proof (onEnd_tree dir w w' studio Hw Hrun Hst) as Htree.
  cbn zeta in Htree. fold dist in Htree.
  destruct (onEnd_files dir w w' checkpoint open Hw Hrun Hcp Hop)
    as ([fc Hfc] & Hchild & [fx Hfx] & Hxdg & [fw Hfw] & Hwasm);
    [by apply absolute_not_in_build..|].
  fold child in Hfc, Hchild. fold xdg in Hfx, Hxdg. fold wasm in Hfw, Hwasm.
  destruct (onEnd_success dir w w' Hw Hrun)
    as (studio' & checkpoint' & open' & m1 & f2 & f3 & f4 & w5
        & Hst' & Hcp' & Hop' & Hm1 & _ & _ & _ & Hfs5 & Hx
        & (Hmod5 & Hex5 & Hfa5 & Hidle5 & Hun5 & Hum5)
        & Hfault1 & Hfault2 & Hfault3 & Hfault4 & Htold).
  assert (studio' = studio) as -> by congruence.
  assert (checkpoint' = checkpoint) as -> by congruence.
  assert (open' = open) as -> by congruence.
  fold dist in Hm1, Hfault1. fold child in Hfault2. fold xdg in Hfault3.
  fold wasm in Hfault4.
  destruct (chmodX_frame "./build/index.js" w5)
    as (Hother & _ & Hmod' & Hex' & Hfa' & _ & Hq').
  destruct (chmodX_oracles "./build/index.js" w5) as (Hun' & Hum').
  rewrite Hx in Hother, Hmod', Hex', Hfa', Hq', Hun', Hum'.
  cbn [snd] in Hother, Hmod', Hex', Hfa', Hq', Hun', Hum'.
  assert (idle w') as Hw' by (unfold idle in *; congruence).
  assert (settled_like w' w') as S0 by (by repeat split).
  assert (fault w' = fault w) as Hfa by congruence.
  assert (modules w' = modules w) as Hmod by congruence.
  assert (unreported w' = unreported w) as Hun by congruence.
  assert (umask w' = umask w) as Hum by congruence.
  set (m4 := <["./build/prisma_schema_build_bg.wasm" := f4]>
               (<["./build/xdg-open" := f3]> (<["./build/child.js" := f2]> m1)))
    in *.
  assert (m4 !! "./build/index.js" = Some (File md ls)) as Hm4.
  { unfold m4. rewrite !lookup_insert_ne by done.
    by rewrite (copy_tree_frame _ _ _ _ _ Hm1). }
  assert (m4 !! "./build/index.js.tmp" = None) as Ht4.
  { unfold m4. rewrite !lookup_insert_ne by done.
    by rewrite (copy_tree_frame _ _ _ _ _ Hm1). }
  (* the copies of the second run *)
  rewrite onEnd_steps_eq by done. unfold onEnd_steps.
  rewrite (bind_Ok _ _ w' studio w') by (apply require_resolve_Ok; congruence).
  fold dist.
  destruct (awaited_promise_replay (Copy dist "./build/public" true true)
              w' w' VUndefined S0) as (w1 & Haw1 & S1).
  { unfold effect. rewrite Hfa, Hfault1.
    rewrite (copy_tree_again dist "./build/public" (fs w')); [done| |].
    - destruct (copy_tree_Some_inv _ _ _ _ Hm1) as (k & f & Hk & Hf).
      exists k, f. split; [done|]. rewrite Hframe; [done|].
      by apply absolute_not_in_build, (absolute_under dist).
    - intros k f Hk Hf. apply Htree; [done|]. rewrite <- Hframe; [done|].
      by apply absolute_not_in_build, (absolute_under dist). }
  rewrite (bind_Ok _ _ _ _ _ Haw1).
  rewrite (bind_Ok _ _ w1 checkpoint w1)
    by (apply require_resolve_Ok; destruct S1 as (_ & -> & _); congruence).
  fold child.
  destruct (awaited_promise_replay (CopyFile child "./build/child.js")
              w' w1 VUndefined S1) as (w2 & Haw2 & S2).
  { apply (effect_CopyFile_again _ _ _ _ _ _ fc); [congruence| |congruence].
    rewrite Hframe; [done | by apply absolute_not_in_build]. }
  rewrite (bind_Ok _ _ _ _ _ Haw2).
  rewrite (bind_Ok _ _ w2 open w2)
    by (apply require_resolve_Ok; destruct S2 as (_ & -> & _); congruence).
  fold xdg.
  destruct (awaited_promise_replay (CopyFile xdg "./build/xdg-open")
              w' w2 VUndefined S2) as (w3 & Haw3 & S3).
  { apply (effect_CopyFile_again _ _ _ _ _ _ fx); [congruence| |congruence].
    rewrite Hframe; [done | by apply absolute_not_in_build]. }
  rewrite (bind_Ok _ _ _ _ _ Haw3).
  fold wasm.
  destruct (awaited_promise_replay
              (CopyFile wasm "./build/prisma_schema_build_bg.wasm")
              w' w3 VUndefined S3) as (w4 & Haw4 & S4).
  { apply (effect_CopyFile_again _ _ _ _ _ _ fw); [congruence| |congruence].
    rewrite Hframe; [done | by apply absolute_not_in_build]. }
  rewrite (bind_Ok _ _ _ _ _ Haw4).
  fold first_line_rewrite in Hfs5 |- *.
  destruct (fault w first_line_rewrite) as [e|] eqn:Hfault5.
  - (* the rewrite fails both times: the mode is right the second time *)
    assert (fs w5 = m4) as Hfs5' by (rewrite Hfs5; unfold effect; by rewrite Hfault5).
    assert (fs w5 !! "./build/index.js" = Some (File md ls)) as Hf5
      by (by rewrite Hfs5').
    pose proof (chmodX_Ok_inv _ _ _ _ _ Hx Hf5 Hmd) as Hindex'.
    destruct (awaited_callback_replay first_line_rewrite w' w4 e S4)
      as (v5 & w5' & Haw5 & S5); [congruence | rewrite Hun; by eapply Htold|].
    rewrite (bind_Ok _ _ _ _ _ Haw5).
    destruct S5 as (Hfs5'' & _ & _ & Hfa5' & _).
    rewrite (chmodX_noop "./build/index.js" (chmodX_mode md) ls).
    + eexists. split; [reflexivity|]. done.
    + by rewrite Hfs5''.
    + by apply chmodX_mode_small.
    + apply chmodX_mode_fixed.
    + rewrite Hfa5', Hfa'. by apply (chmodX_Ok_fault _ _ _ Hx).
  - (* the rewrite goes through both times, and makes the same file *)
    set (ls5 := replace_line 1 ("#!/usr/bin/env node" +:+ LF) false ls).
    set (created := created_mode (umask w) 438).
    pose proof (created_mode_bounds (umask w)) as Hbounds. fold created in Hbounds.
    assert (Z.lor created 73 <> created) as Hnox by apply created_mode_no_execute.
    assert (fs w5 = delete "./build/index.js.tmp"
                      (<["./build/index.js" := File created ls5]> m4)) as Hfs5'.
    { rewrite Hfs5. unfold effect. rewrite Hfault5. unfold first_line_rewrite.
      rewrite Hm4.
      change (temp_file "./build/index.js") with "./build/index.js.tmp".
      by rewrite Ht4. }
    assert (fs w5 !! "./build/index.js" = Some (File created ls5)) as Hf5.
    { rewrite Hfs5', lookup_delete_ne by done. by rewrite lookup_insert_eq. }
    destruct (chmodX_replay "./build/index.js" created ls5 w5 w' w5 Hx Hf5)
      as (w6 & Hx6 & Hfs6); [lia | done | done |].
    rewrite Hx in Hx6. injection Hx6 as <-.
    rewrite bool_decide_eq_false_2 in Hfs6 by done.
    assert (fs w' !! "./build/index.js" = Some (File (chmodX_mode created) ls5))
      as Hi'.
    { by rewrite Hfs6, lookup_insert_eq. }
    assert (fs w' !! "./build/index.js.tmp" = None) as Ht'.
    { rewrite Hfs6, lookup_insert_ne by done. by rewrite Hfs5', lookup_delete_eq. }
    destruct S4 as (Hfs4 & Hmod4 & Hex4 & Hfa4 & Hun4 & Hum4 & Hi4).
    set (m5 := delete "./build/index.js.tmp"
                 (<["./build/index.js" := File created ls5]> (fs w'))).
    set (v5 := VLineReplace {| error := None; replacedText := replaced_line 1 ls5 |}).
    rewrite (bind_Ok _ _ w4 v5 (after first_line_rewrite m5 v5 w4)).
    2:{ apply awaited_Ok. unfold effect.
        rewrite Hfa4, Hfa, Hfault5, Hfs4, Hum4, Hum. unfold first_line_rewrite.
        rewrite Hi'.
        change (temp_file "./build/index.js") with "./build/index.js.tmp".
        rewrite Ht'. cbn [lines]. fold created.
        unfold ls5 at 1 2. rewrite replace_line_again by done. done. }
    destruct (chmodX_replay "./build/index.js" created ls5 w5 w'
                (after first_line_rewrite m5 v5 w4) Hx Hf5)
      as (w7 & Hx7 & Hfs7); [lia | | |].
    { unfold m5. cbn [fs after]. rewrite lookup_delete_ne by done.
      by rewrite lookup_insert_eq. }
    { cbn [fault after]. congruence. }
    rewrite bool_decide_eq_false_2 in Hfs7 by done.
    exists w7. split; [exact Hx7|]. rewrite Hfs7. cbn [fs after]. unfold m5.
    by apply rewrite_in_place.
Qed.

(** ** The properties, by name *)

(** X1.  Whatever happens, [chmodX] changes nothing but the mode of its file:
    the other files, the text of the file, the module table, the oracles,
    the promises and the calls in flight are as before. *)
Theorem chmodX_touches_only_mode (filename : string) (w : world) :
  let w' := (chmodX filename w).2 in
  (forall other, other <> filename -> fs w' !! other = fs w !! other) /\
  lines <$> fs w' !! filename = lines <$> fs w !! filename /\
  modules w' = modules w /\ exec w' = exec w /\ fault w' = fault w /\
  promises w' = promises w /\ queue w' = queue w.
Proof. apply chmodX_frame. Qed.

(** X8.  Whatever happens, the hook writes below [./build/] only: every other
    file is as before. *)
Theorem onEnd_writes_only_build (dir : string) (w : world) :
  idle w ->
  forall k, in_build k = false -> fs (cliLifecycle_onEnd dir w).2 !! k = fs w !! k.
Proof. apply onEnd_frame. Qed.

(** X10.  When the hook returns, the three single files are staged: each
    destination holds the file its source held before the hook, provided
    the source is not itself below [./build/]. *)
Theorem onEnd_stages_files (dir : string) (w w' : world) (checkpoint open : string) :
  idle w ->
  cliLifecycle_onEnd dir w = (Ok tt, w') ->
  modules w !! "checkpoint-client/package.json" = Some checkpoint ->
  modules w !! "open/package.json" = Some open ->
  let child := path.join [ checkpoint; "../dist/child.js" ] in
  let xdg := path.join [ open; "../xdg-open" ] in
  let wasm :=
    path.join [ path.join [ dir; ".."; ".."; "internals"; "node_modules" ];
                "@prisma"; "prisma-schema-wasm"; "src";
                "prisma_schema_build_bg.wasm" ] in
  in_build child = false -> in_build xdg = false -> in_build wasm = false ->
  is_Some (fs w !! child) /\ fs w' !! "./build/child.js" = fs w !! child /\
  is_Some (fs w !! xdg) /\ fs w' !! "./build/xdg-open" = fs w !! xdg /\
  is_Some (fs w !! wasm) /\
  fs w' !! "./build/prisma_schema_build_bg.wasm" = fs w !! wasm.
Proof. apply onEnd_files. Qed.

(** X12.  When the hook returns, every file at or below the [dist] directory of
    the studio package is found at the same place below [./build/public]. *)
Theorem onEnd_stages_studio (dir : string) (w w' : world) (studio : string) :
  idle w ->
  cliLifecycle_onEnd dir w = (Ok tt, w') ->
  modules w !! "@prisma/studio/package.json" = Some studio ->
  let dist := path.join [ studio; "../dist" ] in
  forall k f,
    is_under dist k = true -> fs w !! k = Some f ->
    fs w' !! rebase dist "./build/public" k = Some f.
Proof. apply onEnd_tree. Qed.

(** ** The properties at work *)

Lemma chmodX_missing_file_witness :
  fs demo_world !! "./build/none.js" = None /\
  exists e,
    chmodX "./build/none.js" demo_world
    = (Throw e, add_event (Sync (StatSync "./build/none.js")) demo_world).
Proof.
  split; [reflexivity|].
  apply (chmodX_missing_file "./build/none.js" demo_world). reflexivity.
Defined.

Lemma chmodX_twice_witness :
  fs demo_world !! "./build/index.js"
  = Some (File 33188 [ "console.log(1)"; "x=2" ]) /\
  exists w1 w2,
    chmodX "./build/index.js" demo_world = (Ok tt, w1) /\
    chmodX "./build/index.js" w1 = (Ok tt, w2) /\
    fs w2 = fs w1 /\
    log w2 = log w1 ++ [ Sync (StatSync "./build/index.js") ].
Proof.
  split; [reflexivity|].
  apply (chmodX_twice "./build/index.js" 33188 [ "console.log(1)"; "x=2" ]
           demo_world); [reflexivity | lia | reflexivity | reflexivity].
Defined.

Lemma chmodX_plain_mode_witness :
  fs demo_world !! "./build/index.js"
  = Some (File 33188 [ "console.log(1)"; "x=2" ]) /\
  Z.land 33188 3584 = 0%Z /\
  exists w',
    chmodX "./build/index.js" demo_world = (Ok tt, w') /\
    fs w' !! "./build/index.js"
    = Some (File (Z.lor 33188 73) [ "console.log(1)"; "x=2" ]).
Proof.
  split; [reflexivity|]. split; [reflexivity|].
  apply (chmodX_plain_mode "./build/index.js" 33188 [ "console.log(1)"; "x=2" ]
           demo_world); [reflexivity | lia | reflexivity | reflexivity | reflexivity].
Defined.

Lemma chmodX_clears_special_bits_witness :
  fs demo_world_setuid !! "./build/index.js"
  = Some (File 35236 [ "console.log(1)" ]) /\
  Z.lor 35236 73 <> 35236%Z /\
  exists w' md',
    chmodX "./build/index.js" demo_world_setuid = (Ok tt, w') /\
    fs w' !! "./build/index.js" = Some (File md' [ "console.log(1)" ]) /\
    forall i, (9 <= i < 12)%Z -> Z.testbit md' i = false.
Proof.
  split; [reflexivity|]. split; [discriminate|].
  apply (chmodX_clears_special_bits "./build/index.js" 35236 [ "console.log(1)" ]
           demo_world_setuid);
    [reflexivity | lia | discriminate | reflexivity | reflexivity].
Defined.

Lemma base8_round_trip_witness :
  (0 <= 33188 < 2 ^ 31)%Z /\
  String.length (slice_neg 3 (toString8 (js_or (js_or (js_or 33188 64) 8) 1))) = 3 /\
  parseFileMode (slice_neg 3 (toString8 (js_or (js_or (js_or 33188 64) 8) 1)))
  = Some (Z.land (js_or (js_or (js_or 33188 64) 8) 1) 511).
Proof.
  split; [lia|]. apply (base8_round_trip 33188). lia.
Defined.

Lemma externalPackageJson_filtered_witness :
  let b := esbuild.fresh (Some {| esbuild.format := None;
                                  esbuild.outfile := Some "build/index" |}) in
  let args := {| esbuild.path := "../package.json/.";
                 esbuild.resolveDir := "/proj/pkg/src" |} in
  path.resolve "/proj/pkg" [ esbuild.resolveDir args; esbuild.path args ]
  = path.resolve "/proj/pkg" [ "/proj/pkg/helpers"; ".."; "package.json" ] /\
  package_json_filter (esbuild.path args) = false /\
  forall b',
    esbuild.setup (externalPackageJson "/proj/pkg/helpers" "/proj/pkg") b = inr b' ->
    esbuild.resolve_import (esbuild.onResolveCallbacks b') args = None.
Proof.
  intros b args. split; [reflexivity|]. split; [reflexivity|].
  intros b' Hsetup.
  apply (externalPackageJson_filtered "/proj/pkg/helpers" "/proj/pkg" b b' args);
    [reflexivity | exact Hsetup | reflexivity].
Defined.

Lemma onEnd_writes_only_build_witness :
  idle demo_world /\
  forall k, in_build k = false -> fs demo_staged !! k = fs demo_world !! k.
Proof.
  split; [reflexivity|].
  apply (onEnd_writes_only_build demo_dirname demo_world). reflexivity.
Defined.

Lemma onEnd_needs_packages_witness :
  idle demo_world_no_packages /\
  modules demo_world_no_packages !! "@prisma/studio/package.json" = None /\
  exists e w', cliLifecycle_onEnd demo_dirname demo_world_no_packages = (Throw e, w').
Proof.
  split; [reflexivity|]. split; [reflexivity|].
  apply (onEnd_needs_packages demo_dirname demo_world_no_packages);
    [reflexivity | left; reflexivity].
Defined.

Lemma demo_staged_run :
  cliLifecycle_onEnd demo_dirname demo_world = (Ok tt, demo_staged).
Proof. vm_compute. reflexivity. Defined.

Lemma onEnd_stages_files_witness :
  fs demo_staged !! "./build/child.js"
  = fs demo_world !! "/ws/node_modules/checkpoint-client/dist/child.js" /\
  fs demo_staged !! "./build/xdg-open"
  = fs demo_world !! "/ws/node_modules/open/xdg-open" /\
  fs demo_staged !! "./build/prisma_schema_build_bg.wasm"
  = fs demo_world
      !! "/ws/packages/internals/node_modules/@prisma/prisma-schema-wasm/src/prisma_schema_build_bg.wasm".
Proof.
  destruct (onEnd_stages_files demo_dirname demo_world demo_staged
              "/ws/node_modules/checkpoint-client/package.json"
              "/ws/node_modules/open/package.json")
    as (_ & H1 & _ & H2 & _ & H3);
    [reflexivity | exact demo_staged_run | reflexivity | reflexivity
    | reflexivity | reflexivity | reflexivity |].
  split; [exact H1|]. split; [exact H2 | exact H3].
Defined.

Lemma demo_private_run :
  cliLifecycle_onEnd demo_dirname demo_world_private = (Ok tt, demo_private_staged).
Proof. vm_compute. reflexivity. Defined.

Lemma onEnd_output_file_witness :
  fs demo_world_private !! "./build/index.js"
  = Some (File 33152 [ "console.log(1)"; "x=2" ]) /\
  fs demo_private_staged !! "./build/index.js"
  = Some (File 33261 [ "#!/usr/bin/env node"; "x=2" ]).
Proof.
  split; [reflexivity|].
  apply (onEnd_output_file demo_dirname demo_world_private demo_private_staged
           33152 "console.log(1)" [ "x=2" ]);
    [reflexivity | exact demo_private_run | reflexivity | reflexivity
    | reflexivity | reflexivity].
Defined.

Lemma onEnd_stages_studio_witness :
  fs demo_staged !! "./build/public/assets/app.js" = Some (File 33188 [ "app" ]).
Proof.
  apply (onEnd_stages_studio demo_dirname demo_world demo_staged
           "/ws/node_modules/@prisma/studio/package.json"
           ltac:(reflexivity) demo_staged_run ltac:(reflexivity)
           "/ws/node_modules/@prisma/studio/dist/assets/app.js"
           (File 33188 [ "app" ])); reflexivity.
Defined.

Lemma onEnd_failed_copy_aborts_witness :
  idle demo_world_no_xdg /\
  exists r w' evs,
    cliLifecycle_onEnd demo_dirname demo_world_no_xdg = (r, w') /\
    log w' = log demo_world_no_xdg ++ evs /\
    forall c, End c false ∈ evs -> stage_of c <> Some FirstLine ->
              (exists e, r = Throw e) /\ last evs = Some (End c false).
Proof.
  split; [reflexivity|].
  apply (onEnd_failed_copy_aborts demo_dirname demo_world_no_xdg). reflexivity.
Defined.

Lemma onEnd_twice_witness :
  exists w'', cliLifecycle_onEnd demo_dirname demo_staged = (Ok tt, w'') /\
              fs w'' = fs demo_staged.
Proof.
  apply (onEnd_twice demo_dirname demo_world demo_staged
           "/ws/node_modules/@prisma/studio/package.json"
           "/ws/node_modules/checkpoint-client/package.json"
           "/ws/node_modules/open/package.json"
           33188 [ "console.log(1)"; "x=2" ]);
    [reflexivity | exact demo_staged_run | reflexivity | reflexivity | reflexivity
    | reflexivity | reflexivity | reflexivity | reflexivity | reflexivity | lia
    | reflexivity | reflexivity].
Defined.

Lemma onStart_returns_iff_witness :
  idle demo_world /\
  exists r w',
    cliLifecycle_onStart demo_world = (r, w') /\
    (r = Ok tt <->
     fault demo_world prebuild = None /\
     exec demo_world "node -r esbuild-register ./helpers/copy-prisma-client.ts"
     = Some 0%Z) /\
    (r <> Ok tt -> exists e, r = Throw e).
Proof.
  split; [reflexivity|]. apply (onStart_returns_iff demo_world). reflexivity.
Defined.



Lemma replaceFirstLine_first_line_witness :
  idle demo_world /\
  exists v w' md',
    (p ← replaceFirstLine "./build/index.js" ("#!/usr/bin/env node" +:+ LF); await p)
      demo_world = (Ok v, w') /\
    fs w' !! "./build/index.js"
    = Some (File md' [ "#!/usr/bin/env node"; "x=2" ]) /\
    md' = 33188%Z.
Proof.
  split; [reflexivity|].
  destruct (replaceFirstLine_first_line "./build/index.js" "#!/usr/bin/env node"
              "console.log(1)" [ "x=2" ] 33188 demo_world)
    as (v & w' & md' & Hrun & Hf & Hmd & _);
    [reflexivity | reflexivity | reflexivity | reflexivity | reflexivity |].
  exists v, w', md'. split; [exact Hrun|]. split; [exact Hf|].
  apply Hmd. reflexivity.
Defined.

Lemma replaceFirstLine_never_rejects_witness :
  idle demo_world_rewrite_fails /\
  exists p w1 r,
    replaceFirstLine "./build/index.js" ("#!/usr/bin/env node" +:+ LF)
                     demo_world_rewrite_fails = (Ok p, w1) /\
    promises (drain w1) !! p = Some (Fulfilled (VLineReplace r)) /\
    await p w1 = (Ok (VLineReplace r), drain w1) /\
    error r = Some "EACCES: permission denied".
Proof.
  split; [reflexivity|].
  destruct (replaceFirstLine_never_rejects "./build/index.js"
              ("#!/usr/bin/env node" +:+ LF) demo_world_rewrite_fails eq_refl)
    as (p & w1 & Hrun & _ & Hback & _).
  destruct (Hback eq_refl) as (r & Hcell & Hawait & Herr).
  exists p, w1, r. split; [exact Hrun|]. split; [exact Hcell|].
  split; [exact Hawait|]. apply Herr. reflexivity.
Defined.
